(** * SwiftMeet: booking and rescheduling rules of [app.py]

    A shallow embedding of the Flask/SQLAlchemy handlers of [app.py].

    - The database is a record of three tables; a table is the list of its
      rows in rowid order, and a new row gets the key after the largest one.
      An ORM object is a reference to a row: writing an attribute and
      committing updates the row with that primary key, so two writes through
      two names of one row land on the same row, in program order.
    - A handler is a function from the database, the session cookie, the
      request and the clock reads it makes ([datetime.utcnow()]) to the new
      database and the response; a commit is the returned database, and a
      request that fails returns the database it was given.
    - A naive [datetime] is an integer number of microseconds.
      [datetime.fromisoformat] is a parameter of the handlers; its result
      says whether the string parsed and whether it carried a UTC offset,
      because Python refuses to compare an aware datetime with a naive one.
    - A query is read at the level of its SQLAlchemy expression: [filter] is
      a filter of the table, [order_by] a stable sort (rows with equal times
      stay in table order), [first] the head of the result, and
      [join(Service)] keeps the slots whose service row exists.
    - A request body is a JSON object whose fields have the type the client
      sends (a string or an integer) or are absent ([None]).  Strings are
      ASCII strings. *)

From Stdlib Require Import ZArith List String Ascii Bool Lia.
From Stdlib Require Import Permutation Sorted.
Import ListNotations.

Local Open Scope string_scope.
Local Open Scope list_scope.
Local Open Scope Z_scope.

(** ** Python primitives used by the handlers *)

Module Py.

(** [x or d] on an optional string: [None] and the empty string are falsy. *)
Definition or_str (x : option string) (d : string) : string :=
  match x with
  | None => d
  | Some s => if String.eqb s "" then d else s
  end.

(** Truth value of a string: [bool(s)]. *)
Definition truthy_str (s : string) : bool := negb (String.eqb s "").

(** Truth value of an optional string: [bool(x)]. *)
Definition truthy_ostr (x : option string) : bool :=
  match x with
  | None => false
  | Some s => truthy_str s
  end.

(** Truth value of an optional integer: [None] and [0] are falsy. *)
Definition truthy_int (x : option Z) : bool :=
  match x with
  | None => false
  | Some n => negb (n =? 0)
  end.

(** [c.isspace()] on ASCII: tab, line feed, vertical tab, form feed,
    carriage return, the separators 0x1c-0x1f and the space. *)
Definition isspace (c : ascii) : bool :=
  let n := nat_of_ascii c in
  ((9 <=? n) && (n <=? 13))%nat || ((28 <=? n) && (n <=? 32))%nat.

Fixpoint lstrip (s : string) : string :=
  match s with
  | EmptyString => EmptyString
  | String c s' => if isspace c then lstrip s' else s
  end.

(** [rstrip]: a character is dropped when it is a space and everything after
    it has been dropped. *)
Fixpoint rstrip (s : string) : string :=
  match s with
  | EmptyString => EmptyString
  | String c s' =>
      match rstrip s' with
      | EmptyString => if isspace c then EmptyString else String c EmptyString
      | r => String c r
      end
  end.

Definition strip (s : string) : string := rstrip (lstrip s).

Definition lower_ascii (c : ascii) : ascii :=
  let n := nat_of_ascii c in
  if ((65 <=? n) && (n <=? 90))%nat then ascii_of_nat (n + 32) else c.

Fixpoint lower (s : string) : string :=
  match s with
  | EmptyString => EmptyString
  | String c s' => String (lower_ascii c) (lower s')
  end.

(** [x in {"user", "admin"}]. *)
Definition in_user_admin (x : string) : bool :=
  String.eqb x "user" || String.eqb x "admin".

End Py.

(** ** Models *)

Module User.

Record t := mk {
  id : Z;
  name : string;
  email : string;
  password_hash : string;
  phone : option string;
  place : option string;
  role : string;
  created_at : Z
}.

End User.

(** The columns [lat] and [lng] (floats that no handler reads) are left out. *)
Module Service.

Record t := mk {
  id : Z;
  admin_id : Z;
  name : string;
  type : string;
  specialty : option string;
  description : option string;
  address : string;
  created_at : Z
}.

End Service.

Module Slot.

Record t := mk {
  id : Z;
  service_id : Z;
  time : Z;
  booked : bool;
  booked_by_id : option Z;
  booked_by_name : option string;
  booked_at : option Z;
  status : string;
  auto_rescheduled : bool;
  arrived : bool
}.

(** Attribute writes, one per assigned column. *)
Definition set_booked (v : bool) (s : t) : t :=
  mk (id s) (service_id s) (time s) v (booked_by_id s) (booked_by_name s)
     (booked_at s) (status s) (auto_rescheduled s) (arrived s).

Definition set_booked_by_id (v : option Z) (s : t) : t :=
  mk (id s) (service_id s) (time s) (booked s) v (booked_by_name s)
     (booked_at s) (status s) (auto_rescheduled s) (arrived s).

Definition set_booked_by_name (v : option string) (s : t) : t :=
  mk (id s) (service_id s) (time s) (booked s) (booked_by_id s) v
     (booked_at s) (status s) (auto_rescheduled s) (arrived s).

Definition set_booked_at (v : option Z) (s : t) : t :=
  mk (id s) (service_id s) (time s) (booked s) (booked_by_id s)
     (booked_by_name s) v (status s) (auto_rescheduled s) (arrived s).

Definition set_status (v : string) (s : t) : t :=
  mk (id s) (service_id s) (time s) (booked s) (booked_by_id s)
     (booked_by_name s) (booked_at s) v (auto_rescheduled s) (arrived s).

Definition set_auto_rescheduled (v : bool) (s : t) : t :=
  mk (id s) (service_id s) (time s) (booked s) (booked_by_id s)
     (booked_by_name s) (booked_at s) (status s) v (arrived s).

Definition set_arrived (v : bool) (s : t) : t :=
  mk (id s) (service_id s) (time s) (booked s) (booked_by_id s)
     (booked_by_name s) (booked_at s) (status s) (auto_rescheduled s) v.

End Slot.

(** ** The database *)

Record DB := mkDB {
  users : list User.t;
  services : list Service.t;
  slots : list Slot.t
}.

Definition empty_db : DB := mkDB [] [] [].

Definition with_slots (db : DB) (l : list Slot.t) : DB :=
  mkDB (users db) (services db) l.

Definition with_services (db : DB) (l : list Service.t) : DB :=
  mkDB (users db) l (slots db).

Definition with_users (db : DB) (l : list User.t) : DB :=
  mkDB l (services db) (slots db).

(** The integer primary key given to a new row: one more than the largest
    key of the table, [1] in an empty table. *)
Definition next_id (ids : list Z) : Z := fold_right Z.max 0 ids + 1.

(** [db.session.get(Model, pk)]. *)
Definition get_user (db : DB) (pk : Z) : option User.t :=
  find (fun u => User.id u =? pk) (users db).

Definition get_service (db : DB) (pk : Z) : option Service.t :=
  find (fun v => Service.id v =? pk) (services db).

Definition get_slot (db : DB) (pk : Z) : option Slot.t :=
  find (fun s => Slot.id s =? pk) (slots db).

(** Flushing the attribute writes [f] made on the object with key [pk]. *)
Definition update_slot (f : Slot.t -> Slot.t) (pk : Z) (l : list Slot.t)
  : list Slot.t :=
  map (fun s => if Slot.id s =? pk then f s else s) l.

(** ** Query combinators *)

(** [x == v] on a nullable integer column: false on NULL. *)
Definition col_eq (x : option Z) (v : Z) : bool :=
  match x with
  | Some n => n =? v
  | None => false
  end.

Fixpoint insert_by (le : Slot.t -> Slot.t -> bool) (x : Slot.t)
  (l : list Slot.t) : list Slot.t :=
  match l with
  | [] => [x]
  | y :: l' => if le x y then x :: l else y :: insert_by le x l'
  end.

(** [order_by]: a stable sort, rows with equal keys stay in table order. *)
Definition order_by (le : Slot.t -> Slot.t -> bool) (l : list Slot.t)
  : list Slot.t :=
  fold_right (insert_by le) [] l.

Definition time_asc (x y : Slot.t) : bool := Slot.time x <=? Slot.time y.
Definition time_desc (x y : Slot.t) : bool := Slot.time y <=? Slot.time x.

Definition first {A : Type} (l : list A) : option A := hd_error l.

(** [Slot.query.join(Service)]: the inner join on the foreign key keeps the
    slots whose service row exists. *)
Definition join_Service (db : DB) (l : list Slot.t) : list Slot.t :=
  filter (fun s => existsb (fun v => Service.id v =? Slot.service_id s)
                           (services db)) l.

(** ** Responses *)

Inductive Body :=
| error (msg : string)
| ok
| message (msg : string)
| user_json (u : User.t)
| service_json (v : Service.t)
| slot_json (s : Slot.t)
| slot_with_service (s : Slot.t) (v : option Service.t)
| new_slot_json (s : Slot.t) (v : option Service.t)
| bookings_json (l : list (Slot.t * option Service.t))
| uncaught (exc : string).

Definition Response : Type := Z * Body.

(** [Slot.to_dict_with_service]: the slot with its service row, if any. *)
Definition to_dict_with_service (db : DB) (s : Slot.t)
  : Slot.t * option Service.t :=
  (s, get_service db (Slot.service_id s)).

(** ** Auth helpers *)

(** [get_current_user]: the session holds the user id; a missing id and the
    id [0] are falsy. *)
Definition get_current_user (db : DB) (session : option Z) : option User.t :=
  match session with
  | None => None
  | Some user_id => if user_id =? 0 then None else get_user db user_id
  end.

(** The decorators resolve the caller and run the handler; the handler's own
    [get_current_user()] returns the same row, passed here as its argument. *)
Definition login_required (db : DB) (session : option Z)
  (fn : User.t -> DB * Response) : DB * Response :=
  match get_current_user db session with
  | None => (db, (401, error "Authentication required"))
  | Some user => fn user
  end.

Definition admin_required (db : DB) (session : option Z)
  (fn : User.t -> DB * Response) : DB * Response :=
  match get_current_user db session with
  | None => (db, (403, error "Admin access required"))
  | Some user =>
      if String.eqb (User.role user) "admin" then fn user
      else (db, (403, error "Admin access required"))
  end.

(** ** Request bodies *)

Record RegisterData := mkRegisterData {
  reg_name : option string;
  reg_email : option string;
  reg_password : option string;
  reg_phone : option string;
  reg_place : option string;
  reg_role : option string
}.

Record ServiceData := mkServiceData {
  svc_name : option string;
  svc_type : option string;
  svc_address : option string;
  svc_specialty : option string;
  svc_description : option string
}.

(** The result of [datetime.fromisoformat(time_str)]: a [ValueError], a naive
    datetime (no UTC offset in the string) or an aware one (the string carries
    an offset, as in [2030-01-01T00:00:00+00:00]). *)
Inductive iso_result :=
| ValueError
| Naive (t : Z)
| Aware (t : Z).

(** ** Handlers *)

Section Handlers.

(** The two library functions of the handlers whose code is not the
    repository's. *)
Variable fromisoformat : string -> iso_result.
Variable generate_password_hash : string -> string.

Definition fifteen_minutes : Z := 15 * 60 * 1000000.

(** *** Auth API *)

Definition api_register (db : DB) (session : option Z) (data : RegisterData)
  (now : Z) : DB * option Z * Response :=
  let name := Py.strip (Py.or_str (reg_name data) "") in
  let email := Py.lower (Py.strip (Py.or_str (reg_email data) "")) in
  let password := Py.or_str (reg_password data) "" in
  let phone := Py.strip (Py.or_str (reg_phone data) "") in
  let place := Py.strip (Py.or_str (reg_place data) "") in
  let role := Py.or_str (reg_role data) "user" in
  if negb (Py.truthy_str name && Py.truthy_str email
           && Py.truthy_str password && Py.truthy_str phone
           && Py.truthy_str place)
  then (db, session, (400, error "All fields are required."))
  else
    match first (filter (fun u => String.eqb (User.email u) email)
                        (users db)) with
    | Some _ => (db, session, (400, error "Email already registered."))
    | None =>
        let user :=
          User.mk (next_id (map User.id (users db))) name email
                  (generate_password_hash password) (Some phone) (Some place)
                  (if Py.in_user_admin role then role else "user") now in
        (with_users db (users db ++ [user]), Some (User.id user),
         (200, user_json user))
    end.

(** *** Services API (admin) *)

(** [Service.query.filter_by(id=service_id, admin_id=user.id).first()]. *)
Definition owned_service (db : DB) (user : User.t) (service_id : Z)
  : option Service.t :=
  first (filter (fun v => (Service.id v =? service_id)
                          && (Service.admin_id v =? User.id user))
                (services db)).

Definition or_None (s : string) : option string :=
  if String.eqb s "" then None else Some s.

Definition api_admin_create_service (db : DB) (session : option Z)
  (data : ServiceData) (now : Z) : DB * Response :=
  admin_required db session (fun user =>
    let name := Py.strip (Py.or_str (svc_name data) "") in
    let service_type := Py.strip (Py.or_str (svc_type data) "") in
    let address := Py.strip (Py.or_str (svc_address data) "") in
    if negb (Py.truthy_str name && Py.truthy_str service_type
             && Py.truthy_str address)
    then (db, (400, error "name, type and address are required"))
    else
      let service :=
        Service.mk (next_id (map Service.id (services db))) (User.id user)
                   name service_type
                   (or_None (Py.strip (Py.or_str (svc_specialty data) "")))
                   (or_None (Py.strip (Py.or_str (svc_description data) "")))
                   address now in
      (with_services db (services db ++ [service]),
       (201, service_json service))).

(** [Slot.query.filter_by(service_id=service.id).delete()] followed by
    [db.session.delete(service)]. *)
Definition delete_service_rows (db : DB) (service : Service.t) : DB :=
  mkDB (users db)
       (filter (fun v => negb (Service.id v =? Service.id service))
               (services db))
       (filter (fun s => negb (Slot.service_id s =? Service.id service))
               (slots db)).

Definition api_admin_delete_service (db : DB) (session : option Z)
  (service_id : Z) : DB * Response :=
  admin_required db session (fun user =>
    match owned_service db user service_id with
    | None => (db, (404, error "Service not found"))
    | Some service => (delete_service_rows db service, (200, ok))
    end).

Definition api_admin_delete_all_services (db : DB) (session : option Z)
  : DB * Response :=
  admin_required db session (fun user =>
    let services :=
      filter (fun v => Service.admin_id v =? User.id user) (services db) in
    (fold_left delete_service_rows services db, (200, ok))).

(** *** Slots API (admin) *)

Definition api_admin_create_slot (db : DB) (session : option Z)
  (service_id : Z) (time_str : option string) (now : Z) : DB * Response :=
  admin_required db session (fun user =>
    match owned_service db user service_id with
    | None => (db, (404, error "Service not found"))
    | Some service =>
        match time_str with
        | None => (db, (400, error "time is required (ISO 8601)"))
        | Some time_str =>
            if negb (Py.truthy_str time_str)
            then (db, (400, error "time is required (ISO 8601)"))
            else
              match fromisoformat time_str with
              | ValueError => (db, (400, error "Invalid time format"))
              | Aware _ =>
                  (* [slot_time <= datetime.utcnow()] raises TypeError: an
                     aware and a naive datetime do not compare. *)
                  (db, (500, uncaught "TypeError"))
              | Naive slot_time =>
                  if slot_time <=? now
                  then (db, (400, error "Cannot add a slot in the past"))
                  else
                    let slot :=
                      Slot.mk (next_id (map Slot.id (slots db)))
                              (Service.id service) slot_time false None None
                              None "available" false false in
                    (with_slots db (slots db ++ [slot]),
                     (201, slot_json slot))
              end
        end
    end).

Definition api_admin_delete_slot (db : DB) (session : option Z)
  (service_id slot_id : Z) : DB * Response :=
  admin_required db session (fun user =>
    match owned_service db user service_id with
    | None => (db, (404, error "Service not found"))
    | Some service =>
        match first (filter (fun s => (Slot.id s =? slot_id)
                                      && (Slot.service_id s
                                          =? Service.id service))
                            (slots db)) with
        | None => (db, (404, error "Slot not found"))
        | Some slot =>
            (with_slots db
               (filter (fun s => negb (Slot.id s =? Slot.id slot))
                       (slots db)),
             (200, ok))
        end
    end).

(** *** Bookings API *)

(** The query of [_find_and_book_next_slot]. *)
Definition next_slot_query (db : DB) (service_id now : Z) : option Slot.t :=
  first (order_by time_asc
           (filter (fun s => (Slot.service_id s =? service_id)
                             && negb (Slot.booked s)
                             && (now <? Slot.time s))
                   (slots db))).

(** The attribute writes made on [next_slot]. *)
Definition book_for (user : User.t) (now : Z) (auto : bool) (s : Slot.t)
  : Slot.t :=
  Slot.set_auto_rescheduled auto
    (Slot.set_status "booked"
      (Slot.set_booked_at (Some now)
        (Slot.set_booked_by_name (Some (User.name user))
          (Slot.set_booked_by_id (Some (User.id user))
            (Slot.set_booked true s))))).

Definition _find_and_book_next_slot (db : DB) (now : Z) (user : User.t)
  (service_id : Z) (old_slot : Slot.t) (auto : bool) : DB * option Slot.t :=
  let next_slot := next_slot_query db service_id now in
  (* Mark old slot as no-show regardless of whether we find a new one. *)
  let db1 :=
    with_slots db
      (update_slot (Slot.set_status "no-show") (Slot.id old_slot)
                   (slots db)) in
  match next_slot with
  | None => (db1, None)
  | Some next_slot =>
      let db2 :=
        with_slots db1
          (update_slot (book_for user now auto) (Slot.id next_slot)
                       (slots db1)) in
      (db2, Some (book_for user now auto next_slot))
  end.

(** The attribute writes made on the slot by [api_book_slot]. *)
Definition book_manual (user : User.t) (now : Z) (s : Slot.t) : Slot.t :=
  Slot.set_status "booked"
    (Slot.set_booked_at (Some now)
      (Slot.set_booked_by_name (Some (User.name user))
        (Slot.set_booked_by_id (Some (User.id user))
          (Slot.set_booked true s)))).

Definition api_book_slot (db : DB) (session : option Z)
  (slot_id : option Z) (now : Z) : DB * Response :=
  login_required db session (fun user =>
    match slot_id with
    | None => (db, (400, error "slot_id is required"))
    | Some slot_id =>
        if slot_id =? 0 then (db, (400, error "slot_id is required"))
        else
          match get_slot db slot_id with
          | None => (db, (400, error "Slot not available"))
          | Some slot =>
              if Slot.booked slot
              then (db, (400, error "Slot not available"))
              else
                let db' :=
                  with_slots db
                    (update_slot (book_manual user now) (Slot.id slot)
                                 (slots db)) in
                let slot := book_manual user now slot in
                (db', (200, slot_with_service slot
                              (get_service db' (Slot.service_id slot))))
          end
    end).

(** The filter of the two queries of [api_list_user_bookings]; they differ in
    the value required of [auto_rescheduled]. *)
Definition missed_filter (user : User.t) (now : Z) (auto : bool)
  (s : Slot.t) : bool :=
  col_eq (Slot.booked_by_id s) (User.id user)
  && String.eqb (Slot.status s) "booked"
  && negb (Slot.arrived s)
  && (Slot.time s + fifteen_minutes <? now)
  && Bool.eqb (Slot.auto_rescheduled s) auto.

Definition second_misses (db : DB) (user : User.t) (now : Z)
  : list Slot.t :=
  filter (missed_filter user now true) (join_Service db (slots db)).

Definition missed_candidate (db : DB) (user : User.t) (now : Z)
  : option Slot.t :=
  first (order_by time_asc
           (filter (missed_filter user now false)
                   (join_Service db (slots db)))).

(** The loop over [second_misses]: one status write per selected row. *)
Definition mark_second_misses (db : DB) (user : User.t) (now : Z) : DB :=
  with_slots db
    (fold_left (fun l s => update_slot (Slot.set_status "no-show")
                                       (Slot.id s) l)
               (second_misses db user now) (slots db)).

(** The final query of [api_list_user_bookings]. *)
Definition user_bookings (db : DB) (user : User.t) : list Slot.t :=
  order_by time_desc
    (filter (fun s => col_eq (Slot.booked_by_id s) (User.id user))
            (join_Service db (slots db))).

(** [now] is the clock read of the handler, [now'] the later one of
    [_find_and_book_next_slot]. *)
Definition api_list_user_bookings (db : DB) (session : option Z)
  (now now' : Z) : DB * Response :=
  login_required db session (fun user =>
    let db1 := mark_second_misses db user now in
    let db2 :=
      match missed_candidate db1 user now with
      | Some missed_candidate =>
          fst (_find_and_book_next_slot db1 now' user
                 (Slot.service_id missed_candidate) missed_candidate true)
      | None => db1
      end in
    (db2, (200, bookings_json
                  (map (to_dict_with_service db2) (user_bookings db2 user))))).

(** [Slot.query.filter_by(id=slot_id, booked_by_id=user.id).first()]. *)
Definition own_booking (db : DB) (user : User.t) (slot_id : Z)
  : option Slot.t :=
  first (filter (fun s => (Slot.id s =? slot_id)
                          && col_eq (Slot.booked_by_id s) (User.id user))
                (slots db)).

Definition mark_arrived (s : Slot.t) : Slot.t :=
  Slot.set_arrived true (Slot.set_status "arrived" s).

Definition api_mark_arrived (db : DB) (session : option Z) (slot_id : Z)
  : DB * Response :=
  login_required db session (fun user =>
    match own_booking db user slot_id with
    | None => (db, (404, error "Booking not found"))
    | Some slot =>
        let db' :=
          with_slots db
            (update_slot mark_arrived (Slot.id slot) (slots db)) in
        let slot := mark_arrived slot in
        (db', (200, slot_with_service slot
                      (get_service db' (Slot.service_id slot))))
    end).

Definition api_find_next_slot (db : DB) (session : option Z) (slot_id : Z)
  (now : Z) : DB * Response :=
  login_required db session (fun user =>
    match own_booking db user slot_id with
    | None => (db, (404, error "Booking not found"))
    | Some old_slot =>
        match _find_and_book_next_slot db now user
                (Slot.service_id old_slot) old_slot false with
        | (db', None) => (db', (200, message "No next available slots"))
        | (db', Some new_slot) =>
            (db', (200, new_slot_json new_slot
                          (get_service db' (Slot.service_id new_slot))))
        end
    end).

Definition api_admin_mark_arrived (db : DB) (session : option Z)
  (slot_id : Z) : DB * Response :=
  admin_required db session (fun user =>
    match get_slot db slot_id with
    | None => (db, (404, error "Booking not found"))
    | Some slot =>
        if negb (Slot.booked slot)
        then (db, (404, error "Booking not found"))
        else
          let db' :=
            with_slots db
              (update_slot mark_arrived (Slot.id slot) (slots db)) in
          let slot := mark_arrived slot in
          (db', (200, slot_with_service slot
                        (get_service db' (Slot.service_id slot))))
    end).

(** *** The writing requests and the transition they make

    The other endpoints (login, logout, me, the listings of services, slots
    and admin bookings, the search and the dashboard metrics) write nothing
    to the database. *)

Inductive Request :=
| Register (data : RegisterData) (now : Z)
| AdminCreateService (data : ServiceData) (now : Z)
| AdminDeleteService (service_id : Z)
| AdminDeleteAllServices
| AdminCreateSlot (service_id : Z) (time_str : option string) (now : Z)
| AdminDeleteSlot (service_id slot_id : Z)
| BookSlot (slot_id : option Z) (now : Z)
| ListUserBookings (now now' : Z)
| MarkArrived (slot_id : Z)
| FindNextSlot (slot_id : Z) (now : Z)
| AdminMarkArrived (slot_id : Z).

(** The database after the request of a client whose session is [session]. *)
Definition handle (db : DB) (session : option Z) (r : Request) : DB :=
  match r with
  | Register data now => fst (fst (api_register db session data now))
  | AdminCreateService data now =>
      fst (api_admin_create_service db session data now)
  | AdminDeleteService service_id =>
      fst (api_admin_delete_service db session service_id)
  | AdminDeleteAllServices => fst (api_admin_delete_all_services db session)
  | AdminCreateSlot service_id time_str now =>
      fst (api_admin_create_slot db session service_id time_str now)
  | AdminDeleteSlot service_id slot_id =>
      fst (api_admin_delete_slot db session service_id slot_id)
  | BookSlot slot_id now => fst (api_book_slot db session slot_id now)
  | ListUserBookings now now' =>
      fst (api_list_user_bookings db session now now')
  | MarkArrived slot_id => fst (api_mark_arrived db session slot_id)
  | FindNextSlot slot_id now =>
      fst (api_find_next_slot db session slot_id now)
  | AdminMarkArrived slot_id =>
      fst (api_admin_mark_arrived db session slot_id)
  end.

(** The databases reachable from the empty one. *)
Inductive reachable : DB -> Prop :=
| reachable_empty : reachable empty_db
| reachable_handle db session r :
    reachable db -> reachable (handle db session r).

End Handlers.

(** ** Handlers that write nothing to the database *)

(** The bodies of their responses. *)
Inductive ReadBody :=
| read_error (msg : string)
| services_json (l : list Service.t)
| slots_json (l : list Slot.t)
| slots_with_service_json (l : list (Slot.t * option Service.t))
| metrics_json (total_services available_slots booked_today
                pending_actions : nat).

(** The decorators, on a handler that returns no database. *)
Definition login_required_read (db : DB) (session : option Z)
  (fn : User.t -> Z * ReadBody) : Z * ReadBody :=
  match get_current_user db session with
  | None => (401, read_error "Authentication required")
  | Some user => fn user
  end.

Definition admin_required_read (db : DB) (session : option Z)
  (fn : User.t -> Z * ReadBody) : Z * ReadBody :=
  match get_current_user db session with
  | None => (403, read_error "Admin access required")
  | Some user =>
      if String.eqb (User.role user) "admin" then fn user
      else (403, read_error "Admin access required")
  end.

(** [order_by] on the rows of any table. *)
Fixpoint insert_row {A : Type} (le : A -> A -> bool) (x : A) (l : list A)
  : list A :=
  match l with
  | [] => [x]
  | y :: l' => if le x y then x :: l else y :: insert_row le x l'
  end.

Definition order_rows {A : Type} (le : A -> A -> bool) (l : list A)
  : list A :=
  fold_right (insert_row le) [] l.

Definition created_at_desc (x y : Service.t) : bool :=
  Service.created_at y <=? Service.created_at x.

(** [x in service_ids]. *)
Definition in_ids (x : Z) (ids : list Z) : bool := existsb (Z.eqb x) ids.

(** The counters of the dashboard loop. *)
Record Metrics := mkMetrics {
  available_slots : nat;
  booked_today : nat;
  pending_actions : nat
}.

(** One microsecond-counted day; [datetime(now.year, now.month, now.day)] is
    the last midnight at or before [now]. *)
Definition day : Z := 24 * 60 * 60 * 1000000.

Definition today_start (now : Z) : Z := now - now mod day.

Section ReadHandlers.

(** [werkzeug.security.check_password_hash] and the [ILIKE] of the storage
    engine ([column ILIKE pattern]). *)
Variable check_password_hash : string -> string -> bool.
Variable ilike : string -> string -> bool.

(** *** Auth API *)

Definition api_login (db : DB) (session : option Z)
  (email password : option string) : option Z * Response :=
  let email := Py.lower (Py.strip (Py.or_str email "")) in
  let password := Py.or_str password "" in
  match first (filter (fun u => String.eqb (User.email u) email)
                      (users db)) with
  | None => (session, (400, error "Invalid email or password"))
  | Some user =>
      if negb (check_password_hash (User.password_hash user) password)
      then (session, (400, error "Invalid email or password"))
      else (Some (User.id user), (200, user_json user))
  end.

(** [session.clear()]. *)
Definition api_logout (session : option Z) : option Z * Response :=
  (None, (200, ok)).

(** The [user] field of the answer of [api_me]: [None] is the JSON null. *)
Definition api_me (db : DB) (session : option Z) : Z * option User.t :=
  (200, get_current_user db session).

(** *** Listings (admin) *)

Definition api_admin_list_services (db : DB) (session : option Z)
  : Z * ReadBody :=
  admin_required_read db session (fun user =>
    (200, services_json
            (order_rows created_at_desc
               (filter (fun v => Service.admin_id v =? User.id user)
                       (services db))))).

Definition api_admin_list_slots (db : DB) (session : option Z)
  (service_id : Z) : Z * ReadBody :=
  admin_required_read db session (fun user =>
    match owned_service db user service_id with
    | None => (404, read_error "Service not found")
    | Some service =>
        (200, slots_json
                (order_by time_asc
                   (filter (fun s => Slot.service_id s =? Service.id service)
                           (slots db))))
    end).

(** *** Search *)

Definition api_search_slots (db : DB) (session : option Z)
  (service_type : option string) (now : Z) : Z * ReadBody :=
  login_required_read db session (fun user =>
    let service_type := Py.lower (Py.strip (Py.or_str service_type "")) in
    if negb (Py.truthy_str service_type)
    then (400, read_error "service_type is required")
    else
      let services :=
        filter (fun v => ilike (Service.type v)
                               (String.append "%"
                                  (String.append service_type "%")))
               (services db) in
      match services with
      | [] => (200, slots_with_service_json [])
      | _ =>
          let service_ids := map Service.id services in
          let slots :=
            order_by time_asc
              (filter (fun s => in_ids (Slot.service_id s) service_ids
                                && negb (Slot.booked s)
                                && (now <? Slot.time s))
                      (slots db)) in
          (200, slots_with_service_json
                  (map (to_dict_with_service db) slots))
      end).

(** *** Admin bookings and dashboard *)

Definition api_admin_bookings (db : DB) (session : option Z)
  : Z * ReadBody :=
  admin_required_read db session (fun user =>
    let services :=
      filter (fun v => Service.admin_id v =? User.id user) (services db) in
    match services with
    | [] => (200, slots_with_service_json [])
    | _ =>
        let service_ids := map Service.id services in
        let slots :=
          order_by time_asc
            (filter (fun s => in_ids (Slot.service_id s) service_ids
                              && Slot.booked s)
                    (join_Service db (slots db))) in
        (200, slots_with_service_json (map (to_dict_with_service db) slots))
    end).

(** One turn of the loop over the slots. *)
Definition count_slot (today_start : Z) (m : Metrics) (s : Slot.t)
  : Metrics :=
  if negb (Slot.booked s)
  then mkMetrics (S (available_slots m)) (booked_today m) (pending_actions m)
  else
    let booked_today' :=
      match Slot.booked_at s with
      | Some booked_at =>
          if today_start <=? booked_at then S (booked_today m)
          else booked_today m
      | None => booked_today m
      end in
    let pending_actions' :=
      if String.eqb (Slot.status s) "booked"
         && (Slot.time s <? today_start) && negb (Slot.arrived s)
      then S (pending_actions m) else pending_actions m in
    mkMetrics (available_slots m) booked_today' pending_actions'.

Definition api_admin_dashboard_metrics (db : DB) (session : option Z)
  (now : Z) : Z * ReadBody :=
  admin_required_read db session (fun user =>
    let services :=
      filter (fun v => Service.admin_id v =? User.id user) (services db) in
    let total_services := List.length services in
    let service_ids := map Service.id services in
    let today_start := today_start now in
    let m :=
      match service_ids with
      | [] => mkMetrics 0 0 0
      | _ =>
          fold_left (count_slot today_start)
                    (filter (fun s => in_ids (Slot.service_id s) service_ids)
                            (slots db))
                    (mkMetrics 0 0 0)
      end in
    (200, metrics_json total_services (available_slots m) (booked_today m)
                       (pending_actions m))).

End ReadHandlers.

(** ** Well-formed databases *)

Fixpoint nodupb (l : list Z) : bool :=
  match l with
  | [] => true
  | x :: l' => negb (existsb (Z.eqb x) l') && nodupb l'
  end.

(** [booked] holds exactly when [booked_by_id] is not NULL. *)
Definition booked_consistent (s : Slot.t) : bool :=
  Bool.eqb (Slot.booked s)
           (match Slot.booked_by_id s with Some _ => true | None => false end).

Definition has_service (db : DB) (s : Slot.t) : bool :=
  existsb (fun v => Service.id v =? Slot.service_id s) (services db).

(** Primary keys are unique and positive, [booked] agrees with
    [booked_by_id], and every slot refers to a service row. *)
Definition wf (db : DB) : bool :=
  nodupb (map Slot.id (slots db))
  && forallb (fun s => 0 <? Slot.id s) (slots db)
  && nodupb (map Service.id (services db))
  && forallb (fun v => 0 <? Service.id v) (services db)
  && forallb booked_consistent (slots db)
  && forallb (has_service db) (slots db).

(** The invariant of the data model, as a proposition. *)
Definition booked_iff_booked_by (db : DB) : Prop :=
  forall s, In s (slots db) ->
    (Slot.booked s = true <-> Slot.booked_by_id s <> None).

(** The same, as propositions. *)
Record WF (db : DB) : Prop := mkWF {
  WF_slot_ids : NoDup (map Slot.id (slots db));
  WF_slot_pos : forall s, In s (slots db) -> 0 < Slot.id s;
  WF_service_ids : NoDup (map Service.id (services db));
  WF_service_pos : forall v, In v (services db) -> 0 < Service.id v;
  WF_booked : forall s, In s (slots db) -> booked_consistent s = true;
  WF_service : forall s, In s (slots db) -> has_service db s = true
}.

(** A write that keeps the key and the service of the row, and the agreement
    of [booked] with [booked_by_id]. *)
Record good_write (f : Slot.t -> Slot.t) : Prop := mkGoodWrite {
  gw_id : forall s, Slot.id (f s) = Slot.id s;
  gw_service : forall s, Slot.service_id (f s) = Slot.service_id s;
  gw_booked :
    forall s, booked_consistent s = true -> booked_consistent (f s) = true
}.

(** *** Missed bookings *)

(** A booking of [user] that is still [booked], not arrived, and whose time
    plus the grace period is before [now]. *)
Definition missed (user : User.t) (now : Z) (s : Slot.t) : Prop :=
  Slot.booked_by_id s = Some (User.id user)
  /\ Slot.status s = "booked"
  /\ Slot.arrived s = false
  /\ Slot.time s + fifteen_minutes < now.

(** A missed booking in [db] that no automatic reschedule produced. *)
Definition eligible (db : DB) (user : User.t) (now : Z) (s : Slot.t) : Prop :=
  In s (slots db) /\ missed user now s /\ Slot.auto_rescheduled s = false.

(** *** Bookings across a request *)

(** [s'] is the booking [s], possibly with its status moved to [no-show] or
    to [arrived]. *)
Definition same_booking (s s' : Slot.t) : Prop :=
  Slot.service_id s' = Slot.service_id s
  /\ Slot.time s' = Slot.time s
  /\ Slot.booked s' = true
  /\ Slot.booked_by_id s' = Slot.booked_by_id s
  /\ Slot.auto_rescheduled s' = Slot.auto_rescheduled s
  /\ (Slot.status s' = Slot.status s \/ Slot.status s' = "no-show"
      \/ Slot.status s' = "arrived").

(** Every booked row of [db] is deleted in [db'] or is the same booking. *)
Definition keeps_bookings (db db' : DB) : Prop :=
  forall k s, get_slot db k = Some s -> Slot.booked s = true ->
    get_slot db' k = None
    \/ exists s', get_slot db' k = Some s' /\ same_booking s s'.

(** *** The life cycle of the rows *)

(** A slot as [api_admin_create_slot] makes it. *)
Definition pristine (s : Slot.t) : Prop :=
  Slot.booked_by_id s = None
  /\ Slot.booked_by_name s = None
  /\ Slot.booked_at s = None
  /\ Slot.status s = "available"
  /\ Slot.auto_rescheduled s = false
  /\ Slot.arrived s = false.

(** The status and the booking time of a booked slot. *)
Definition taken (s : Slot.t) : Prop :=
  (Slot.status s = "booked" \/ Slot.status s = "arrived"
   \/ Slot.status s = "no-show")
  /\ Slot.booked_at s <> None.

(** What holds of the three tables after any sequence of requests. *)
Record Inv (db : DB) : Prop := mkInv {
  Inv_wf : WF db;
  Inv_user_ids : NoDup (map User.id (users db));
  Inv_user_pos : forall u, In u (users db) -> 0 < User.id u;
  Inv_emails : NoDup (map User.email (users db));
  Inv_roles :
    forall u, In u (users db) -> User.role u = "user" \/ User.role u = "admin";
  Inv_owner :
    forall v, In v (services db) ->
      exists u, In u (users db) /\ User.id u = Service.admin_id v
                /\ User.role u = "admin";
  Inv_booker :
    forall s uid, In s (slots db) -> Slot.booked_by_id s = Some uid ->
      exists u, In u (users db) /\ User.id u = uid
                /\ Slot.booked_by_name s = Some (User.name u);
  Inv_free : forall s, In s (slots db) -> Slot.booked s = false -> pristine s;
  Inv_taken : forall s, In s (slots db) -> Slot.booked s = true -> taken s;
  Inv_arrived :
    forall s, In s (slots db) -> Slot.status s = "arrived" ->
      Slot.arrived s = true
}.

(** ** A sample database and sample requests *)

Definition ex_alice : User.t :=
  User.mk 1 "Alice" "alice@example.org" "h1" (Some "555-0100") (Some "Pune")
          "user" 0.

Definition ex_bob : User.t :=
  User.mk 2 "Bob" "bob@example.org" "h2" (Some "555-0101") (Some "Delhi")
          "admin" 0.

Definition ex_dentist : Service.t :=
  Service.mk 1 2 "Smile" "dentist" None None "1 Main St" 0.

(** The clock of the sample requests, in microseconds. *)
Definition ex_now : Z := 5000000000.

(** Slot 1: a missed booking of Alice.  Slot 2: a missed booking of Alice
    that an automatic reschedule produced.  Slots 3 and 4: free, in the
    future.  Slot 5: free, in the past.  Slot 6: a booking of Alice marked
    arrived. *)
Definition ex_slot1 : Slot.t :=
  Slot.mk 1 1 1000 true (Some 1) (Some "Alice") (Some 10) "booked" false
          false.

Definition ex_slot2 : Slot.t :=
  Slot.mk 2 1 2000 true (Some 1) (Some "Alice") (Some 20) "booked" true
          false.

Definition ex_slot3 : Slot.t :=
  Slot.mk 3 1 20000000000 false None None None "available" false false.

Definition ex_slot4 : Slot.t :=
  Slot.mk 4 1 10000000000 false None None None "available" false false.

Definition ex_slot5 : Slot.t :=
  Slot.mk 5 1 500 false None None None "available" false false.

Definition ex_slot6 : Slot.t :=
  Slot.mk 6 1 3000 true (Some 1) (Some "Alice") (Some 30) "arrived" false
          true.

Definition ex_db : DB :=
  mkDB [ex_alice; ex_bob] [ex_dentist]
       [ex_slot1; ex_slot2; ex_slot3; ex_slot4; ex_slot5; ex_slot6].

(** The values of [datetime.fromisoformat] on the strings of the sample
    requests. *)
Definition ex_fromisoformat (s : string) : iso_result :=
  if String.eqb s "2030-01-01T00:00:00" then Naive 1893456000000000
  else if String.eqb s "2030-01-01T01:00:00" then Naive 1893459600000000
  else if String.eqb s "2030-01-01T02:00:00" then Naive 1893463200000000
  else if String.eqb s "2030-01-01T00:00:00+00:00"
       then Aware 1893456000000000
  else if String.eqb s "1970-01-01T00:00:01" then Naive 1000000
  else ValueError.

Definition ex_generate_password_hash (password : string) : string :=
  String.append "pbkdf2:" password.

Definition ex_register : RegisterData :=
  mkRegisterData (Some " Eve ") (Some "Eve@Example.org") (Some "secret")
                 (Some "555-0102") (Some "Goa") (Some "admin").

(** A [check_password_hash] that accepts the hashes of
    [ex_generate_password_hash]. *)
Definition ex_check_password_hash (pwhash password : string) : bool :=
  String.eqb pwhash (ex_generate_password_hash password).

(** [LIKE] with its two wildcards, and the [ILIKE] made of it on ASCII. *)
Fixpoint ex_like (pattern s : string) : bool :=
  match pattern with
  | EmptyString =>
      match s with
      | EmptyString => true
      | String _ _ => false
      end
  | String c pattern' =>
      if Ascii.eqb c "%"
      then (fix any (s : string) : bool :=
              ex_like pattern' s
              || match s with
                 | EmptyString => false
                 | String _ s' => any s'
                 end) s
      else
        match s with
        | EmptyString => false
        | String d s' =>
            (Ascii.eqb c "_" || Ascii.eqb c d) && ex_like pattern' s'
        end
  end.

Definition ex_ilike (value pattern : string) : bool :=
  ex_like (Py.lower pattern) (Py.lower value).

Definition ex_service_data : ServiceData :=
  mkServiceData (Some " Clinic ") (Some "Doctor") (Some "2 High St") None
                (Some "  ").

(** The account that [ex_register] creates in [ex_db], and the database with
    it: a second admin, who owns no service. *)
Definition ex_eve : User.t :=
  User.mk 3 "Eve" "eve@example.org" "pbkdf2:secret" (Some "555-0102")
          (Some "Goa") "admin" ex_now.

Definition ex_db_eve : DB := with_users ex_db (users ex_db ++ [ex_eve]).

(** A session of requests, each with the session cookie of its client. *)
Definition run (fromisoformat : string -> iso_result)
  (generate_password_hash : string -> string)
  (db : DB) (l : list (option Z * Request)) : DB :=
  fold_left (fun d r => handle fromisoformat generate_password_hash d
                               (fst r) (snd r)) l db.

(** The scenario of the specification: an admin publishes a dentist service
    with slots at T, T+1h and T+2h; a user books the first one, misses it,
    and lists their bookings 16 minutes after T, then again 16 minutes after
    T+1h. *)
Definition ex_T : Z := 1893456000000000.
Definition ex_hour : Z := 3600000000.
Definition ex_minute : Z := 60000000.

Definition ex_scenario : list (option Z * Request) :=
  [ (None, Register (mkRegisterData (Some "Bob") (Some "bob@example.org")
                       (Some "pw") (Some "555-0101") (Some "Delhi")
                       (Some "admin")) 0);
    (None, Register (mkRegisterData (Some "Alice")
                       (Some "alice@example.org") (Some "pw")
                       (Some "555-0100") (Some "Pune") None) 0);
    (Some 1, AdminCreateService
               (mkServiceData (Some "Smile") (Some "dentist")
                              (Some "1 Main St") None None) 0);
    (Some 1, AdminCreateSlot 1 (Some "2030-01-01T00:00:00") 0);
    (Some 1, AdminCreateSlot 1 (Some "2030-01-01T01:00:00") 0);
    (Some 1, AdminCreateSlot 1 (Some "2030-01-01T02:00:00") 0);
    (Some 2, BookSlot (Some 1) 1) ].

Definition ex_first_listing : list (option Z * Request) :=
  [ (Some 2, ListUserBookings (ex_T + 16 * ex_minute)
                              (ex_T + 16 * ex_minute)) ].

Definition ex_second_listing : list (option Z * Request) :=
  [ (Some 2, ListUserBookings (ex_T + ex_hour + 16 * ex_minute)
                              (ex_T + ex_hour + 16 * ex_minute)) ].

(** The columns of a slot that the scenario follows. *)
Definition ex_view (s : Slot.t)
  : Z * bool * option Z * string * bool :=
  (Slot.id s, Slot.booked s, Slot.booked_by_id s, Slot.status s,
   Slot.auto_rescheduled s).

(** The database after the scenario and the first listing. *)
Definition ex_reached : DB :=
  run ex_fromisoformat ex_generate_password_hash empty_db
      (ex_scenario ++ ex_first_listing).

(** ** Lists, keys and orderings *)

Lemma nodupb_NoDup (l : list Z) : nodupb l = true <-> NoDup l.
Proof.
  induction l as [|x l IH]; simpl.
  - split; [constructor | reflexivity].
  - rewrite andb_true_iff, negb_true_iff, IH. split.
    + intros [Hx Hl]. constructor; [|exact Hl].
      intros Hin. assert (existsb (Z.eqb x) l = true) as E.
      { apply existsb_exists. exists x. split; [exact Hin | apply Z.eqb_refl]. }
      congruence.
    + intros H. inversion H as [|? ? Hx Hl]; subst. split; [|exact Hl].
      destruct (existsb (Z.eqb x) l) eqn:E; [|reflexivity].
      apply existsb_exists in E. destruct E as [y [Hy Exy]].
      apply Z.eqb_eq in Exy. subst y. contradiction.
Qed.

Lemma next_id_gt (ids : list Z) x : In x ids -> x < next_id ids.
Proof.
  unfold next_id. induction ids as [|y ids IH]; simpl; [tauto|].
  intros [->|Hin]; [lia|]. specialize (IH Hin). lia.
Qed.

Lemma next_id_pos (ids : list Z) : 0 < next_id ids.
Proof.
  unfold next_id. induction ids as [|y ids IH]; simpl; lia.
Qed.

Lemma next_id_fresh (ids : list Z) : ~ In (next_id ids) ids.
Proof. intros H. apply next_id_gt in H. lia. Qed.

Lemma NoDup_snoc (l : list Z) x : NoDup l -> ~ In x l -> NoDup (l ++ [x]).
Proof.
  intros Hl Hx. apply NoDup_rev in Hl.
  rewrite <- (rev_involutive (l ++ [x])). apply NoDup_rev.
  rewrite rev_app_distr. simpl. constructor; [|exact Hl].
  rewrite <- in_rev. exact Hx.
Qed.

Section Ordering.

Variable le : Slot.t -> Slot.t -> bool.

Lemma insert_by_perm x l : Permutation (insert_by le x l) (x :: l).
Proof.
  induction l as [|y l IH]; simpl; [reflexivity|].
  destruct (le x y); [reflexivity|].
  rewrite IH. apply perm_swap.
Qed.

Lemma order_by_perm l : Permutation (order_by le l) l.
Proof.
  induction l as [|x l IH]; simpl; [reflexivity|].
  rewrite insert_by_perm. now constructor.
Qed.

Lemma order_by_In l x : In x (order_by le l) <-> In x l.
Proof.
  split; apply Permutation_in;
    [apply order_by_perm | symmetry; apply order_by_perm].
Qed.

Hypothesis le_total : forall x y, le x y = false -> le y x = true.
Hypothesis le_trans :
  forall x y z, le x y = true -> le y z = true -> le x z = true.

Lemma insert_by_sorted x l :
  StronglySorted (fun a b => le a b = true) l ->
  StronglySorted (fun a b => le a b = true) (insert_by le x l).
Proof.
  induction l as [|y l IH]; simpl; intros Hs.
  - constructor; [constructor | constructor].
  - inversion Hs as [|? ? Hl Hy]; subst.
    destruct (le x y) eqn:E.
    + constructor; [exact Hs|]. constructor; [exact E|].
      rewrite Forall_forall in *. intros z Hz. eauto.
    + constructor; [now apply IH|].
      rewrite Forall_forall in *. intros z Hz.
      apply (Permutation_in _ (insert_by_perm x l)) in Hz.
      destruct Hz as [<-|Hz]; [now apply le_total | now apply Hy].
Qed.

Lemma order_by_sorted l :
  StronglySorted (fun a b => le a b = true) (order_by le l).
Proof.
  induction l as [|x l IH]; simpl; [constructor | now apply insert_by_sorted].
Qed.

Lemma le_refl_of_total x : le x x = true.
Proof.
  destruct (le x x) eqn:E; [reflexivity|].
  pose proof (le_total _ _ E). congruence.
Qed.

(** The head of the sorted result is a row of the table that is below every
    other; there is no head exactly when the table is empty. *)
Lemma first_order_by l x :
  first (order_by le l) = Some x ->
  In x l /\ forall y, In y l -> le x y = true.
Proof.
  intros H. pose proof (order_by_sorted l) as Hs.
  assert (In x (order_by le l)) as Hin.
  { destruct (order_by le l); [discriminate|]. injection H as ->. now left. }
  split; [now apply order_by_In|].
  intros y Hy. apply order_by_In in Hy.
  destruct (order_by le l) as [|z r]; [discriminate|].
  injection H as ->. inversion Hs as [|? ? _ Hall]; subst.
  destruct Hy as [<-|Hy]; [apply le_refl_of_total|].
  rewrite Forall_forall in Hall. now apply Hall.
Qed.

Lemma first_order_by_None l : first (order_by le l) = None <-> l = [].
Proof.
  split.
  - intros H. destruct l as [|x l]; [reflexivity|].
    assert (In x (order_by le (x :: l))) as Hin
      by (apply order_by_In; now left).
    destruct (order_by le (x :: l)); [destruct Hin | discriminate].
  - intros ->. reflexivity.
Qed.

End Ordering.

Lemma time_asc_total x y : time_asc x y = false -> time_asc y x = true.
Proof. unfold time_asc. intros H. apply Z.leb_gt in H. apply Z.leb_le. lia. Qed.

Lemma time_asc_trans x y z :
  time_asc x y = true -> time_asc y z = true -> time_asc x z = true.
Proof. unfold time_asc. rewrite !Z.leb_le. lia. Qed.



(** ** Rows and their keys *)

Lemma find_update_slot f pk k l :
  (forall s, Slot.id (f s) = Slot.id s) ->
  find (fun s => Slot.id s =? k) (update_slot f pk l)
  = option_map (fun s => if Slot.id s =? pk then f s else s)
               (find (fun s => Slot.id s =? k) l).
Proof.
  intros Hf. induction l as [|x l IH]; simpl; [reflexivity|].
  assert (Slot.id (if Slot.id x =? pk then f x else x) = Slot.id x) as ->
    by (destruct (Slot.id x =? pk); [apply Hf | reflexivity]).
  destruct (Slot.id x =? k); [reflexivity | exact IH].
Qed.

Lemma get_slot_update db f pk k :
  (forall s, Slot.id (f s) = Slot.id s) ->
  get_slot (with_slots db (update_slot f pk (slots db))) k
  = option_map (fun s => if Slot.id s =? pk then f s else s) (get_slot db k).
Proof. intros Hf. unfold get_slot. simpl. now apply find_update_slot. Qed.

Lemma update_slot_ids f pk l :
  (forall s, Slot.id (f s) = Slot.id s) ->
  map Slot.id (update_slot f pk l) = map Slot.id l.
Proof.
  intros Hf. unfold update_slot. rewrite map_map. apply map_ext.
  intros s. destruct (Slot.id s =? pk); [apply Hf | reflexivity].
Qed.

Lemma find_id_In l s :
  NoDup (map Slot.id l) -> In s l ->
  find (fun r => Slot.id r =? Slot.id s) l = Some s.
Proof.
  induction l as [|x l IH]; simpl; [tauto|].
  intros Hnd Hin. inversion Hnd as [|? ? Hx Hl]; subst.
  destruct Hin as [->|Hin].
  - now rewrite Z.eqb_refl.
  - destruct (Slot.id x =? Slot.id s) eqn:E; [|now apply IH].
    apply Z.eqb_eq in E. exfalso. apply Hx. rewrite E. now apply in_map.
Qed.

Lemma get_slot_In db s :
  NoDup (map Slot.id (slots db)) -> In s (slots db) ->
  get_slot db (Slot.id s) = Some s.
Proof. apply find_id_In. Qed.

Lemma get_slot_Some db k s :
  get_slot db k = Some s -> In s (slots db) /\ Slot.id s = k.
Proof.
  unfold get_slot. intros H. apply find_some in H.
  destruct H as [Hin E]. apply Z.eqb_eq in E. now split.
Qed.


Lemma slot_id_inj db a b :
  NoDup (map Slot.id (slots db)) -> In a (slots db) -> In b (slots db) ->
  Slot.id a = Slot.id b -> a = b.
Proof.
  intros Hnd Ha Hb E.
  pose proof (get_slot_In db a Hnd Ha) as Ga.
  pose proof (get_slot_In db b Hnd Hb) as Gb.
  rewrite E in Ga. congruence.
Qed.

(** ** The reschedule query *)

Lemma next_slot_query_Some db service_id now n :
  next_slot_query db service_id now = Some n ->
  In n (slots db) /\ Slot.service_id n = service_id
  /\ Slot.booked n = false /\ now < Slot.time n
  /\ forall s, In s (slots db) -> Slot.service_id s = service_id ->
       Slot.booked s = false -> now < Slot.time s ->
       Slot.time n <= Slot.time s.
Proof.
  unfold next_slot_query. intros H.
  apply (first_order_by _ time_asc_total time_asc_trans) in H.
  destruct H as [Hin Hmin]. apply filter_In in Hin.
  destruct Hin as [Hin Hf].
  rewrite !andb_true_iff, negb_true_iff, Z.eqb_eq, Z.ltb_lt in Hf.
  destruct Hf as [[Hs Hb] Ht]. repeat split; try assumption.
  intros s Hs' Es Eb Et. apply Z.leb_le. apply (Hmin s).
  apply filter_In. split; [exact Hs'|].
  rewrite !andb_true_iff, negb_true_iff, Z.eqb_eq, Z.ltb_lt. now repeat split.
Qed.

Lemma next_slot_query_None db service_id now :
  next_slot_query db service_id now = None ->
  forall s, In s (slots db) -> Slot.service_id s = service_id ->
    Slot.booked s = false -> ~ now < Slot.time s.
Proof.
  unfold next_slot_query. intros H s Hin Es Eb Et.
  apply first_order_by_None in H.
  assert (In s []) as F; [|destruct F].
  rewrite <- H. apply filter_In. split; [exact Hin|].
  rewrite !andb_true_iff, negb_true_iff, Z.eqb_eq, Z.ltb_lt. now repeat split.
Qed.

Lemma book_for_id user now auto s :
  Slot.id (book_for user now auto s) = Slot.id s.
Proof. reflexivity. Qed.

Lemma set_status_id v s : Slot.id (Slot.set_status v s) = Slot.id s.
Proof. reflexivity. Qed.

(** ** The shared reschedule operation *)

(** C1.  [_find_and_book_next_slot], called on a booked old slot: the slot it
    selects is an unbooked slot of the given service with time after [now],
    and no such slot is earlier; the old slot ends with status [no-show]
    whether or not a replacement exists; a replacement ends booked for the
    user ([booked], [booked_by_id], [booked_by_name], [booked_at = now],
    status [booked], [auto_rescheduled = auto]) and is the returned slot;
    with no replacement nothing is returned and no other row changes. *)
Theorem find_and_book_next_slot_spec
  (db : DB) (now : Z) (user : User.t) (service_id : Z) (old_slot : Slot.t)
  (auto : bool) :
  NoDup (map Slot.id (slots db)) ->
  In old_slot (slots db) ->
  Slot.booked old_slot = true ->
  let db' :=
    fst (_find_and_book_next_slot db now user service_id old_slot auto) in
  get_slot db' (Slot.id old_slot)
  = Some (Slot.set_status "no-show" old_slot)
  /\ map Slot.id (slots db') = map Slot.id (slots db)
  /\ match snd (_find_and_book_next_slot db now user service_id old_slot
                  auto) with
     | Some new_slot =>
         exists next_slot,
           In next_slot (slots db)
           /\ Slot.service_id next_slot = service_id
           /\ Slot.booked next_slot = false
           /\ now < Slot.time next_slot
           /\ (forall s, In s (slots db) -> Slot.service_id s = service_id ->
                 Slot.booked s = false -> now < Slot.time s ->
                 Slot.time next_slot <= Slot.time s)
           /\ get_slot db' (Slot.id next_slot) = Some new_slot
           /\ new_slot
              = Slot.mk (Slot.id next_slot) (Slot.service_id next_slot)
                        (Slot.time next_slot) true (Some (User.id user))
                        (Some (User.name user)) (Some now) "booked" auto
                        (Slot.arrived next_slot)
           /\ forall k, k <> Slot.id old_slot -> k <> Slot.id next_slot ->
                get_slot db' k = get_slot db k
     | None =>
         (forall s, In s (slots db) -> Slot.service_id s = service_id ->
            Slot.booked s = false -> ~ now < Slot.time s)
         /\ forall k, k <> Slot.id old_slot -> get_slot db' k = get_slot db k
     end.
Proof.
  intros Hnd Hold Hb. unfold _find_and_book_next_slot.
  pose proof (get_slot_In db old_slot Hnd Hold) as Gold.
  unfold get_slot in Gold.
  destruct (next_slot_query db service_id now) as [n|] eqn:Q; simpl.
  - destruct (next_slot_query_Some _ _ _ _ Q) as (Hn & Hs & Hnb & Ht & Hmin).
    assert (Slot.id old_slot <> Slot.id n) as Hne.
    { intros E. apply (slot_id_inj db _ _ Hnd Hold Hn) in E. congruence. }
    pose proof (get_slot_In db n Hnd Hn) as Gn. unfold get_slot in Gn.
    unfold get_slot; simpl. repeat split.
    + rewrite !find_update_slot by reflexivity. rewrite Gold. simpl.
      rewrite Z.eqb_refl. simpl.
      destruct (Slot.id old_slot =? Slot.id n) eqn:E; [|reflexivity].
      apply Z.eqb_eq in E. contradiction.
    + rewrite !update_slot_ids by reflexivity. reflexivity.
    + exists n. repeat split; try assumption.
      * rewrite !find_update_slot by reflexivity. rewrite Gn. simpl.
        destruct (Slot.id n =? Slot.id old_slot) eqn:E.
        { apply Z.eqb_eq in E. symmetry in E. contradiction. }
        now rewrite Z.eqb_refl.
      * intros k Hk1 Hk2. rewrite !find_update_slot by reflexivity.
        destruct (find (fun s => Slot.id s =? k) (slots db)) as [r|] eqn:G;
          [|reflexivity].
        apply (get_slot_Some db) in G. destruct G as [_ <-]. simpl.
        apply Z.eqb_neq in Hk1. rewrite Hk1.
        apply Z.eqb_neq in Hk2. now rewrite Hk2.
  - unfold get_slot; simpl. repeat split.
    + rewrite find_update_slot by reflexivity. rewrite Gold. simpl.
      now rewrite Z.eqb_refl.
    + now rewrite update_slot_ids by reflexivity.
    + now apply next_slot_query_None.
    + intros k Hk. rewrite find_update_slot by reflexivity.
      destruct (find (fun s => Slot.id s =? k) (slots db)) as [r|] eqn:G;
        [|reflexivity].
      apply (get_slot_Some db) in G. destruct G as [_ <-]. simpl.
      apply Z.eqb_neq in Hk. now rewrite Hk.
Qed.

(** ** Well-formedness as propositions *)

Lemma wf_WF db : wf db = true <-> WF db.
Proof.
  unfold wf. rewrite !andb_true_iff, !nodupb_NoDup, !forallb_forall.
  split.
  - intros [[[[[H1 H2] H3] H4] H5] H6]. constructor; try assumption.
    + intros s Hs. apply Z.ltb_lt. now apply H2.
    + intros v Hv. apply Z.ltb_lt. now apply H4.
  - intros [H1 H2 H3 H4 H5 H6]. repeat split; try assumption.
    + intros s Hs. apply Z.ltb_lt. now apply H2.
    + intros v Hv. apply Z.ltb_lt. now apply H4.
Qed.

Lemma booked_consistent_iff s :
  booked_consistent s = true
  <-> (Slot.booked s = true <-> Slot.booked_by_id s <> None).
Proof.
  unfold booked_consistent.
  destruct (Slot.booked s), (Slot.booked_by_id s); simpl;
    intuition congruence.
Qed.

Lemma good_write_set_status v : good_write (Slot.set_status v).
Proof. constructor; intros s; try reflexivity; now intros H. Qed.

Lemma good_write_book_for user now auto : good_write (book_for user now auto).
Proof. constructor; intros s; reflexivity. Qed.

Lemma good_write_if f (c : Slot.t -> bool) :
  good_write f -> good_write (fun s => if c s then f s else s).
Proof.
  intros [H1 H2 H3]. constructor; intros s; destruct (c s); auto.
Qed.

Lemma find_map_id g k l :
  (forall s, Slot.id (g s) = Slot.id s) ->
  find (fun s => Slot.id s =? k) (map g l)
  = option_map g (find (fun s => Slot.id s =? k) l).
Proof.
  intros Hg. induction l as [|x l IH]; simpl; [reflexivity|].
  rewrite Hg. destruct (Slot.id x =? k); [reflexivity | exact IH].
Qed.

Lemma WF_map db g :
  WF db -> good_write g -> WF (with_slots db (map g (slots db))).
Proof.
  intros [H1 H2 H3 H4 H5 H6] [G1 G2 G3]. constructor; simpl; try assumption.
  - rewrite map_map. rewrite (map_ext _ Slot.id) by exact G1. exact H1.
  - intros s Hs. apply in_map_iff in Hs. destruct Hs as [r [<- Hr]].
    rewrite G1. now apply H2.
  - intros s Hs. apply in_map_iff in Hs. destruct Hs as [r [<- Hr]].
    now apply G3, H5.
  - intros s Hs. apply in_map_iff in Hs. destruct Hs as [r [<- Hr]].
    unfold has_service in *. simpl. rewrite G2. now apply H6.
Qed.

Lemma WF_update db f pk :
  WF db -> good_write f ->
  WF (with_slots db (update_slot f pk (slots db))).
Proof.
  intros Hwf Hf. unfold update_slot. apply WF_map; [exact Hwf|].
  now apply (good_write_if f (fun s => Slot.id s =? pk)).
Qed.

(** A loop of writes by key is one pass over the table. *)
Lemma fold_update_slot f ms l :
  (forall s, Slot.id (f s) = Slot.id s) ->
  (forall s, f (f s) = f s) ->
  fold_left (fun l s => update_slot f (Slot.id s) l) ms l
  = map (fun s => if existsb (fun m => Slot.id s =? Slot.id m) ms
                  then f s else s) l.
Proof.
  intros Hid Hidem. revert l.
  induction ms as [|m ms IH]; intros l; simpl.
  - symmetry. rewrite <- (map_id l) at 2. reflexivity.
  - rewrite IH. unfold update_slot. rewrite map_map. apply map_ext.
    intros s. destruct (Slot.id s =? Slot.id m) eqn:E; simpl.
    + rewrite Hid, Hidem. now destruct (existsb _ ms).
    + reflexivity.
Qed.

Lemma mark_second_misses_slots db user now :
  slots (mark_second_misses db user now)
  = map (fun s => if existsb (fun m => Slot.id s =? Slot.id m)
                              (second_misses db user now)
                  then Slot.set_status "no-show" s else s) (slots db).
Proof.
  unfold mark_second_misses. simpl. now apply fold_update_slot.
Qed.

Lemma WF_mark_second_misses db user now :
  WF db -> WF (mark_second_misses db user now).
Proof.
  intros Hwf.
  assert (mark_second_misses db user now
          = with_slots db (slots (mark_second_misses db user now))) as ->
    by reflexivity.
  rewrite mark_second_misses_slots. apply WF_map; [exact Hwf|].
  apply (good_write_if _ (fun s => existsb _ _)), good_write_set_status.
Qed.


(** Every row after [_find_and_book_next_slot], by key. *)
Lemma find_and_book_get db now user service_id old_slot auto k :
  get_slot (fst (_find_and_book_next_slot db now user service_id old_slot
                   auto)) k
  = option_map
      (fun r =>
         let r1 := if Slot.id r =? Slot.id old_slot
                   then Slot.set_status "no-show" r else r in
         match next_slot_query db service_id now with
         | Some n => if Slot.id r =? Slot.id n
                     then book_for user now auto r1 else r1
         | None => r1
         end)
      (get_slot db k).
Proof.
  unfold _find_and_book_next_slot, get_slot.
  destruct (next_slot_query db service_id now) as [n|]; simpl.
  - rewrite !find_update_slot by reflexivity.
    destruct (find _ (slots db)) as [r|]; simpl; [|reflexivity].
    now destruct (Slot.id r =? Slot.id old_slot).
  - rewrite find_update_slot by reflexivity.
    now destruct (find _ (slots db)).
Qed.

Lemma join_Service_WF db : WF db -> join_Service db (slots db) = slots db.
Proof.
  intros Hwf. unfold join_Service.
  assert (forall l, (forall s, In s l -> has_service db s = true) ->
                    filter (has_service db) l = l) as H.
  { induction l as [|x l IH]; simpl; [reflexivity|]. intros Hl.
    rewrite (Hl x) by now left. f_equal. apply IH. intros s Hs. apply Hl.
    now right. }
  apply H. apply (WF_service db Hwf).
Qed.

(** ** Listing one's bookings *)

Lemma col_eq_iff x v : col_eq x v = true <-> x = Some v.
Proof.
  destruct x as [n|]; simpl; [|split; discriminate].
  rewrite Z.eqb_eq. split; congruence.
Qed.

Lemma missed_filter_iff user now auto s :
  missed_filter user now auto s = true
  <-> missed user now s /\ Slot.auto_rescheduled s = auto.
Proof.
  unfold missed_filter, missed.
  rewrite !andb_true_iff, col_eq_iff, String.eqb_eq, negb_true_iff,
    Z.ltb_lt, eqb_true_iff.
  tauto.
Qed.

Lemma StronglySorted_weaken {A : Type} (R R' : A -> A -> Prop) l :
  (forall a b, R a b -> R' a b) -> StronglySorted R l -> StronglySorted R' l.
Proof.
  intros HR. induction 1 as [|a l Hs IH Ha]; constructor; [exact IH|].
  rewrite Forall_forall in *. auto.
Qed.

Lemma missed_candidate_Some db user now c :
  WF db -> missed_candidate db user now = Some c ->
  eligible db user now c
  /\ forall s, eligible db user now s -> Slot.time c <= Slot.time s.
Proof.
  intros Hwf. unfold missed_candidate. rewrite (join_Service_WF db Hwf).
  intros H. apply (first_order_by _ time_asc_total time_asc_trans) in H.
  destruct H as [Hin Hmin]. apply filter_In in Hin. destruct Hin as [Hin Hf].
  apply missed_filter_iff in Hf. split; [split; tauto|].
  intros s [Hs [Hm Ha]]. apply Z.leb_le. apply (Hmin s).
  apply filter_In. split; [exact Hs|]. now apply missed_filter_iff.
Qed.


Lemma second_miss_after_pass db user now s :
  WF db -> In s (slots db) -> missed user now s ->
  Slot.auto_rescheduled s = true ->
  get_slot (mark_second_misses db user now) (Slot.id s)
  = Some (Slot.set_status "no-show" s).
Proof.
  intros Hwf Hs Hm Ha. unfold get_slot.
  rewrite mark_second_misses_slots.
  rewrite find_map_id by (intros r; now destruct (existsb _ _)).
  rewrite (find_id_In _ s (WF_slot_ids db Hwf) Hs). simpl.
  assert (existsb (fun m => Slot.id s =? Slot.id m)
                  (second_misses db user now) = true) as ->; [|reflexivity].
  apply existsb_exists. exists s. split; [|apply Z.eqb_refl].
  unfold second_misses. rewrite (join_Service_WF db Hwf).
  apply filter_In. split; [exact Hs|]. now apply missed_filter_iff.
Qed.

(** C2.  When a user lists their bookings, each of their slots that is still
    [booked], not arrived, past its time by more than 15 minutes and itself
    the product of an automatic reschedule ends with status [no-show], which
    no later pass selects; and the slot chosen for the automatic reschedule
    always has [auto_rescheduled = false]. *)
Theorem second_miss_becomes_no_show
  (db : DB) (session : option Z) (user : User.t) (now now' : Z)
  (s : Slot.t) :
  wf db = true ->
  get_current_user db session = Some user ->
  In s (slots db) ->
  missed user now s ->
  Slot.auto_rescheduled s = true ->
  get_slot (fst (api_list_user_bookings db session now now')) (Slot.id s)
  = Some (Slot.set_status "no-show" s)
  /\ (forall u t a,
        missed_filter u t a (Slot.set_status "no-show" s) = false)
  /\ forall c,
       missed_candidate (mark_second_misses db user now) user now = Some c ->
       Slot.auto_rescheduled c = false.
Proof.
  intros Hwf Hu Hs Hm Ha. apply wf_WF in Hwf.
  pose proof (WF_mark_second_misses db user now Hwf) as Hwf1.
  pose proof (second_miss_after_pass db user now s Hwf Hs Hm Ha) as G1.
  split; [|split].
  - unfold api_list_user_bookings, login_required. rewrite Hu. simpl.
    destruct (missed_candidate _ user now) as [c|] eqn:C; [|exact G1].
    rewrite find_and_book_get, G1. simpl. f_equal.
    assert (forall r, (if Slot.id s =? Slot.id c
                       then Slot.set_status "no-show"
                              (Slot.set_status "no-show" s)
                       else Slot.set_status "no-show" s) = r ->
                      r = Slot.set_status "no-show" s) as Hidem
      by (intros r <-; now destruct (Slot.id s =? Slot.id c)).
    destruct (next_slot_query _ _ now') as [n|] eqn:Q;
      [|now apply Hidem].
    destruct (Slot.id s =? Slot.id n) eqn:E; [|now apply Hidem].
    exfalso. apply Z.eqb_eq in E.
    apply next_slot_query_Some in Q. destruct Q as (Hn & _ & Hb & _).
    apply get_slot_Some in G1. destruct G1 as [Hs1 _].
    assert (Slot.set_status "no-show" s = n) as En
      by (apply (slot_id_inj _ _ _ (WF_slot_ids _ Hwf1) Hs1 Hn); exact E).
    pose proof (WF_booked db Hwf s Hs) as Hc.
    apply booked_consistent_iff in Hc. destruct Hm as [Hby _].
    assert (Slot.booked s = true) as Hbs by (apply Hc; congruence).
    rewrite <- En in Hb. simpl in Hb. congruence.
  - intros u t a. unfold missed_filter. simpl.
    now rewrite andb_false_r.
  - intros c C. apply (missed_candidate_Some _ _ _ _ Hwf1) in C.
    destruct C as [[_ [_ Hc]] _]. exact Hc.
Qed.


(** ** Invariants of the writing requests *)

Lemma good_write_book_manual user now : good_write (book_manual user now).
Proof. constructor; intros s; reflexivity. Qed.

Lemma good_write_mark_arrived : good_write mark_arrived.
Proof. constructor; intros s; try reflexivity; now intros H. Qed.

Section Invariant.

Variable fromisoformat : string -> iso_result.
Variable generate_password_hash : string -> string.

(** A property of databases kept by each kind of write the handlers make. *)
Variable I : DB -> Prop.

Hypothesis I_users : forall db l, I db -> I (with_users db l).
Hypothesis I_add_service :
  forall db v, I db ->
    Service.id v = next_id (map Service.id (services db)) ->
    I (with_services db (services db ++ [v])).
Hypothesis I_update :
  forall db f pk, I db -> good_write f ->
    I (with_slots db (update_slot f pk (slots db))).
Hypothesis I_delete_service :
  forall db v, I db -> I (delete_service_rows db v).
Hypothesis I_delete_slot :
  forall db pk, I db ->
    I (with_slots db (filter (fun s => negb (Slot.id s =? pk)) (slots db))).
Hypothesis I_add_slot :
  forall db v t, I db -> In v (services db) ->
    I (with_slots db
         (slots db ++ [Slot.mk (next_id (map Slot.id (slots db)))
                               (Service.id v) t false None None None
                               "available" false false])).

Lemma I_fold_update f ms :
  good_write f ->
  forall db, I db ->
    I (with_slots db
         (fold_left (fun l s => update_slot f (Slot.id s) l) ms (slots db))).
Proof.
  intros Hf. induction ms as [|m ms IH]; intros db Hdb; simpl.
  - now destruct db.
  - apply (IH (with_slots db (update_slot f (Slot.id m) (slots db)))).
    now apply I_update.
Qed.

Lemma I_find_and_book db now user service_id old_slot auto :
  I db ->
  I (fst (_find_and_book_next_slot db now user service_id old_slot auto)).
Proof.
  intros Hdb. unfold _find_and_book_next_slot.
  pose proof (I_update db (Slot.set_status "no-show") (Slot.id old_slot)
                Hdb (good_write_set_status _)) as H1.
  destruct (next_slot_query db service_id now) as [n|]; simpl; [|exact H1].
  apply (I_update _ (book_for user now auto) (Slot.id n)) in H1;
    [exact H1 | apply good_write_book_for].
Qed.

Lemma I_fold_delete l : forall db, I db -> I (fold_left delete_service_rows l db).
Proof.
  induction l as [|v l IH]; intros db Hdb; simpl; [exact Hdb|].
  apply IH. now apply I_delete_service.
Qed.

Lemma owned_service_In db user service_id v :
  owned_service db user service_id = Some v ->
  In v (services db) /\ Service.id v = service_id
  /\ Service.admin_id v = User.id user.
Proof.
  unfold owned_service, first. intros H.
  assert (In v (filter (fun v => (Service.id v =? service_id)
                                 && (Service.admin_id v =? User.id user))
                       (services db))) as Hin.
  { destruct (filter _ _); [discriminate|]. injection H as ->. now left. }
  apply filter_In in Hin. destruct Hin as [Hin Hf].
  rewrite andb_true_iff, !Z.eqb_eq in Hf. tauto.
Qed.

Ltac resolve_user :=
  unfold login_required, admin_required;
  destruct (get_current_user _ _) as [user|]; simpl; try assumption;
  try match goal with
      | |- context [String.eqb (User.role ?u) "admin"] =>
          destruct (String.eqb (User.role u) "admin"); simpl; try assumption
      end.

(** Every writing request keeps the property. *)
Lemma handle_preserves db session r :
  I db -> I (handle fromisoformat generate_password_hash db session r).
Proof.
  intros Hdb. destruct r; simpl.
  - unfold api_register.
    destruct (negb _); simpl; [exact Hdb|].
    destruct (first _); simpl; [exact Hdb|]. now apply I_users.
  - unfold api_admin_create_service. resolve_user.
    destruct (negb _); simpl; [exact Hdb|]. now apply I_add_service.
  - unfold api_admin_delete_service. resolve_user.
    destruct (owned_service _ _ _); simpl; [|exact Hdb].
    now apply I_delete_service.
  - unfold api_admin_delete_all_services. resolve_user. now apply I_fold_delete.
  - unfold api_admin_create_slot. resolve_user.
    destruct (owned_service _ _ _) as [v|] eqn:O; simpl; [|exact Hdb].
    destruct time_str as [ts|]; simpl; [|exact Hdb].
    destruct (negb _); simpl; [exact Hdb|].
    destruct (fromisoformat ts) as [|t|t]; simpl; try exact Hdb.
    destruct (t <=? now); simpl; [exact Hdb|].
    apply I_add_slot; [exact Hdb|]. now apply owned_service_In in O.
  - unfold api_admin_delete_slot. resolve_user.
    destruct (owned_service _ _ _); simpl; [|exact Hdb].
    destruct (first _); simpl; [|exact Hdb]. now apply I_delete_slot.
  - unfold api_book_slot. resolve_user.
    destruct slot_id as [k|]; simpl; [|exact Hdb].
    destruct (k =? 0); simpl; [exact Hdb|].
    destruct (get_slot db k) as [s|]; simpl; [|exact Hdb].
    destruct (Slot.booked s); simpl; [exact Hdb|].
    apply I_update; [exact Hdb | apply good_write_book_manual].
  - unfold api_list_user_bookings. resolve_user.
    assert (I (mark_second_misses db user now)) as H1
      by (apply I_fold_update; [apply good_write_set_status | exact Hdb]).
    destruct (missed_candidate _ _ _); [|exact H1].
    now apply I_find_and_book.
  - unfold api_mark_arrived. resolve_user.
    destruct (own_booking _ _ _); simpl; [|exact Hdb].
    apply I_update; [exact Hdb | apply good_write_mark_arrived].
  - unfold api_find_next_slot. resolve_user.
    destruct (own_booking _ _ _) as [o|]; simpl; [|exact Hdb].
    pose proof (I_find_and_book db now user (Slot.service_id o) o false Hdb)
      as H.
    destruct (_find_and_book_next_slot _ _ _ _ _ _) as [d [n|]]; exact H.
  - unfold api_admin_mark_arrived. resolve_user.
    destruct (get_slot db slot_id) as [s|]; simpl; [|exact Hdb].
    destruct (negb _); simpl; [exact Hdb|].
    apply I_update; [exact Hdb | apply good_write_mark_arrived].
Qed.

End Invariant.

(** ** The two invariants *)

Lemma NoDup_map_filter {A : Type} (f : A -> Z) (p : A -> bool) l :
  NoDup (map f l) -> NoDup (map f (filter p l)).
Proof.
  induction l as [|x l IH]; simpl; [auto|].
  intros H. inversion H as [|? ? Hx Hl]; subst.
  destruct (p x); simpl; [|now apply IH].
  constructor; [|now apply IH].
  intros Hin. apply Hx. apply in_map_iff in Hin.
  destruct Hin as [y [E Hy]]. apply filter_In in Hy.
  apply in_map_iff. exists y. tauto.
Qed.

Lemma In_update_slot f pk l s' :
  In s' (update_slot f pk l) ->
  exists s, In s l /\ s' = if Slot.id s =? pk then f s else s.
Proof.
  unfold update_slot. intros H. apply in_map_iff in H.
  destruct H as [s [E Hs]]. exists s. now split.
Qed.

Lemma booked_inv_users db l :
  booked_iff_booked_by db -> booked_iff_booked_by (with_users db l).
Proof. intros H. exact H. Qed.

Lemma booked_inv_add_service db v :
  booked_iff_booked_by db ->
  booked_iff_booked_by (with_services db (services db ++ [v])).
Proof. intros H. exact H. Qed.

Lemma booked_inv_update db f pk :
  booked_iff_booked_by db -> good_write f ->
  booked_iff_booked_by (with_slots db (update_slot f pk (slots db))).
Proof.
  intros H Hf s' Hs'. simpl in Hs'. apply In_update_slot in Hs'.
  destruct Hs' as [s [Hs ->]]. apply booked_consistent_iff.
  specialize (H s Hs). apply booked_consistent_iff in H.
  destruct (Slot.id s =? pk); [now apply (gw_booked f Hf) | exact H].
Qed.

Lemma booked_inv_delete_service db v :
  booked_iff_booked_by db -> booked_iff_booked_by (delete_service_rows db v).
Proof.
  intros H s Hs. simpl in Hs. apply filter_In in Hs. now apply H.
Qed.

Lemma booked_inv_delete_slot db pk :
  booked_iff_booked_by db ->
  booked_iff_booked_by
    (with_slots db (filter (fun s => negb (Slot.id s =? pk)) (slots db))).
Proof.
  intros H s Hs. simpl in Hs. apply filter_In in Hs. now apply H.
Qed.

Lemma booked_inv_add_slot db (v : Service.t) t :
  booked_iff_booked_by db ->
  booked_iff_booked_by
    (with_slots db
       (slots db ++ [Slot.mk (next_id (map Slot.id (slots db)))
                             (Service.id v) t false None None None
                             "available" false false])).
Proof.
  intros H s Hs. simpl in Hs. apply in_app_or in Hs.
  destruct Hs as [Hs|[<-|[]]]; [now apply H|]. simpl.
  split; [discriminate | congruence].
Qed.

Lemma has_service_more db l s :
  has_service db s = true ->
  has_service (with_services db (services db ++ l)) s = true.
Proof.
  unfold has_service. simpl. rewrite existsb_app. now intros ->.
Qed.

Lemma WF_users db l : WF db -> WF (with_users db l).
Proof. intros [H1 H2 H3 H4 H5 H6]. now constructor. Qed.

Lemma WF_add_service db v :
  WF db -> Service.id v = next_id (map Service.id (services db)) ->
  WF (with_services db (services db ++ [v])).
Proof.
  intros [H1 H2 H3 H4 H5 H6] E. constructor; simpl; try assumption.
  - rewrite map_app. simpl. apply NoDup_snoc; [exact H3|].
    rewrite E. apply next_id_fresh.
  - intros u Hu. apply in_app_or in Hu. destruct Hu as [Hu|[<-|[]]];
      [now apply H4|]. rewrite E. apply next_id_pos.
  - intros s Hs. now apply has_service_more, H6.
Qed.

Lemma WF_delete_service db v : WF db -> WF (delete_service_rows db v).
Proof.
  intros [H1 H2 H3 H4 H5 H6]. constructor; simpl.
  - now apply NoDup_map_filter.
  - intros s Hs. apply filter_In in Hs. now apply H2.
  - now apply NoDup_map_filter.
  - intros u Hu. apply filter_In in Hu. now apply H4.
  - intros s Hs. apply filter_In in Hs. now apply H5.
  - intros s Hs. apply filter_In in Hs. destruct Hs as [Hs Hne].
    specialize (H6 s Hs). unfold has_service in *. simpl.
    apply existsb_exists in H6. destruct H6 as [u [Hu E]].
    apply existsb_exists. exists u. split; [|exact E].
    apply filter_In. split; [exact Hu|].
    apply Z.eqb_eq in E. now rewrite E.
Qed.

Lemma WF_delete_slot db pk :
  WF db ->
  WF (with_slots db (filter (fun s => negb (Slot.id s =? pk)) (slots db))).
Proof.
  intros [H1 H2 H3 H4 H5 H6]. constructor; simpl; try assumption.
  - now apply NoDup_map_filter.
  - intros s Hs. apply filter_In in Hs. now apply H2.
  - intros s Hs. apply filter_In in Hs. now apply H5.
  - intros s Hs. apply filter_In in Hs. now apply H6.
Qed.

Lemma WF_add_slot db (v : Service.t) t :
  WF db -> In v (services db) ->
  WF (with_slots db
        (slots db ++ [Slot.mk (next_id (map Slot.id (slots db)))
                              (Service.id v) t false None None None
                              "available" false false])).
Proof.
  intros [H1 H2 H3 H4 H5 H6] Hv. constructor; simpl; try assumption.
  - rewrite map_app. simpl. apply NoDup_snoc; [exact H1|].
    apply next_id_fresh.
  - intros s Hs. apply in_app_or in Hs. destruct Hs as [Hs|[<-|[]]];
      [now apply H2|]. apply next_id_pos.
  - intros s Hs. apply in_app_or in Hs. destruct Hs as [Hs|[<-|[]]];
      [now apply H5 | reflexivity].
  - intros s Hs. apply in_app_or in Hs. destruct Hs as [Hs|[<-|[]]];
      [now apply H6|]. unfold has_service. simpl.
    apply existsb_exists. exists v. split; [exact Hv | apply Z.eqb_refl].
Qed.

Lemma WF_handle fromisoformat generate_password_hash db session r :
  WF db -> WF (handle fromisoformat generate_password_hash db session r).
Proof.
  apply handle_preserves.
  - apply WF_users.
  - apply WF_add_service.
  - apply WF_update.
  - apply WF_delete_service.
  - apply WF_delete_slot.
  - apply WF_add_slot.
Qed.

(** Every database reachable from the empty one is well formed. *)
Lemma reachable_wf fromisoformat generate_password_hash db :
  reachable fromisoformat generate_password_hash db -> wf db = true.
Proof.
  intros H. apply wf_WF. induction H as [|db session r _ IH].
  - now apply wf_WF.
  - now apply WF_handle.
Qed.

(** C4.  Every writing request keeps the invariant that a slot is [booked]
    exactly when its [booked_by_id] is not NULL: a created slot is unbooked
    with a NULL [booked_by_id], booking and rescheduling write [booked = true]
    together with the id of the user, and the writes of [no-show] and of the
    arrival change neither column. *)
Theorem booked_iff_booked_by_preserved
  (fromisoformat : string -> iso_result)
  (generate_password_hash : string -> string)
  (db : DB) (session : option Z) (r : Request) :
  booked_iff_booked_by db ->
  booked_iff_booked_by
    (handle fromisoformat generate_password_hash db session r)
  /\ (forall service_id time_str now db' slot,
        api_admin_create_slot fromisoformat db session service_id time_str
                              now
        = (db', (201, slot_json slot)) ->
        Slot.booked slot = false /\ Slot.booked_by_id slot = None)
  /\ (forall user now s,
        Slot.booked (book_manual user now s) = true
        /\ Slot.booked_by_id (book_manual user now s) = Some (User.id user))
  /\ (forall user now auto s,
        Slot.booked (book_for user now auto s) = true
        /\ Slot.booked_by_id (book_for user now auto s)
           = Some (User.id user))
  /\ (forall v s,
        Slot.booked (Slot.set_status v s) = Slot.booked s
        /\ Slot.booked_by_id (Slot.set_status v s) = Slot.booked_by_id s)
  /\ (forall s,
        Slot.booked (mark_arrived s) = Slot.booked s
        /\ Slot.booked_by_id (mark_arrived s) = Slot.booked_by_id s).
Proof.
  intros Hdb. split; [|split; [|repeat split]].
  - revert Hdb. apply handle_preserves.
    + apply booked_inv_users.
    + intros d v H _. now apply booked_inv_add_service.
    + apply booked_inv_update.
    + apply booked_inv_delete_service.
    + apply booked_inv_delete_slot.
    + intros d v t H _. now apply booked_inv_add_slot.
  - intros service_id time_str now db' slot.
    unfold api_admin_create_slot, admin_required.
    destruct (get_current_user db session) as [user|]; [|discriminate].
    destruct (String.eqb (User.role user) "admin"); [|discriminate].
    destruct (owned_service db user service_id); [|discriminate].
    destruct time_str as [ts|]; [|discriminate].
    destruct (negb _); [discriminate|].
    destruct (fromisoformat ts) as [|t0|t0]; try discriminate.
    destruct (t0 <=? now); [discriminate|].
    intros E. injection E as _ <-. now split.
Qed.

(** In every reachable database a slot is [booked] exactly when it has a
    [booked_by_id]. *)
Lemma reachable_booked_iff_booked_by fromisoformat generate_password_hash db :
  reachable fromisoformat generate_password_hash db ->
  booked_iff_booked_by db.
Proof.
  intros H s Hs. apply reachable_wf, wf_WF in H.
  apply booked_consistent_iff. now apply (WF_booked db H).
Qed.

(** ** A booking is never rewritten *)

Lemma same_booking_refl s : Slot.booked s = true -> same_booking s s.
Proof. intros H. unfold same_booking. tauto. Qed.

Lemma same_booking_trans s1 s2 s3 :
  same_booking s1 s2 -> same_booking s2 s3 -> same_booking s1 s3.
Proof.
  unfold same_booking.
  intros (A1 & A2 & A3 & A4 & A5 & A6) (B1 & B2 & B3 & B4 & B5 & B6).
  repeat split; try congruence.
  destruct B6 as [B6|[B6|B6]]; [rewrite B6; exact A6 | tauto | tauto].
Qed.

Lemma same_booking_set_status s :
  Slot.booked s = true -> same_booking s (Slot.set_status "no-show" s).
Proof. intros H. unfold same_booking. simpl. tauto. Qed.

Lemma same_booking_mark_arrived s :
  Slot.booked s = true -> same_booking s (mark_arrived s).
Proof. intros H. unfold same_booking. simpl. tauto. Qed.

Lemma keeps_bookings_refl db : keeps_bookings db db.
Proof.
  intros k s G B. right. exists s. split; [exact G|].
  now apply same_booking_refl.
Qed.

Lemma keeps_bookings_slots db db' :
  slots db' = slots db -> keeps_bookings db db'.
Proof.
  intros E k s G B. right. exists s. unfold get_slot in *. rewrite E.
  split; [exact G | now apply same_booking_refl].
Qed.

Lemma find_filter_id (q : Slot.t -> bool) k l :
  NoDup (map Slot.id l) ->
  find (fun s => Slot.id s =? k) (filter q l)
  = match find (fun s => Slot.id s =? k) l with
    | Some s => if q s then Some s else None
    | None => None
    end.
Proof.
  induction l as [|x l IH]; simpl; [reflexivity|].
  intros Hnd. inversion Hnd as [|? ? Hx Hl]; subst.
  destruct (Slot.id x =? k) eqn:E.
  - destruct (q x); simpl; [now rewrite E|].
    rewrite (IH Hl). apply Z.eqb_eq in E.
    destruct (find _ l) as [y|] eqn:F; [|reflexivity].
    apply find_some in F. destruct F as [Hy Ey]. apply Z.eqb_eq in Ey.
    exfalso. apply Hx. rewrite E, <- Ey. now apply in_map.
  - destruct (q x); simpl; [rewrite E|]; now apply IH.
Qed.

Lemma keeps_bookings_filter db db' q :
  WF db -> slots db' = filter q (slots db) -> keeps_bookings db db'.
Proof.
  intros Hwf E k s G B. unfold get_slot in *.
  rewrite E, (find_filter_id q k _ (WF_slot_ids db Hwf)), G.
  destruct (q s); [right | now left].
  exists s. split; [reflexivity | now apply same_booking_refl].
Qed.

Lemma find_app_Some {A : Type} (p : A -> bool) l l' x :
  find p l = Some x -> find p (l ++ l') = Some x.
Proof.
  induction l as [|y l IH]; simpl; [discriminate|].
  destruct (p y); [trivial | exact IH].
Qed.

Lemma keeps_bookings_app db db' l :
  slots db' = slots db ++ l -> keeps_bookings db db'.
Proof.
  intros E k s G B. right. exists s. unfold get_slot in *.
  rewrite E, (find_app_Some _ _ _ _ G).
  split; [reflexivity | now apply same_booking_refl].
Qed.

(** A pass of status writes. *)
Lemma bookings_after_map db db' g :
  slots db' = map g (slots db) ->
  (forall s, g s = s \/ g s = Slot.set_status "no-show" s
             \/ g s = mark_arrived s) ->
  forall k s, get_slot db k = Some s -> Slot.booked s = true ->
    exists s', get_slot db' k = Some s' /\ same_booking s s'.
Proof.
  intros E Hg k s G B. unfold get_slot in *. rewrite E.
  rewrite find_map_id, G.
  - exists (g s). split; [reflexivity|].
    destruct (Hg s) as [-> | [-> | ->]];
      [now apply same_booking_refl | now apply same_booking_set_status
       | now apply same_booking_mark_arrived].
  - intros r. now destruct (Hg r) as [-> | [-> | ->]].
Qed.

Lemma bookings_after_status_write db f pk :
  f = Slot.set_status "no-show" \/ f = mark_arrived ->
  forall k s, get_slot db k = Some s -> Slot.booked s = true ->
    exists s',
      get_slot (with_slots db (update_slot f pk (slots db))) k = Some s'
      /\ same_booking s s'.
Proof.
  intros Hf. apply (bookings_after_map db _
                      (fun s => if Slot.id s =? pk then f s else s));
    [reflexivity|].
  intros s. destruct (Slot.id s =? pk); [|now left].
  destruct Hf as [-> | ->]; tauto.
Qed.

(** A booking write lands on an unbooked row. *)
Lemma bookings_after_book db f n :
  WF db -> In n (slots db) -> Slot.booked n = false ->
  (forall s, Slot.id (f s) = Slot.id s) ->
  forall k s, get_slot db k = Some s -> Slot.booked s = true ->
    get_slot (with_slots db (update_slot f (Slot.id n) (slots db))) k
    = Some s.
Proof.
  intros Hwf Hn Bn Hf k s G B. unfold get_slot in *. simpl.
  rewrite find_update_slot by exact Hf. rewrite G. simpl.
  destruct (Slot.id s =? Slot.id n) eqn:E; [|reflexivity].
  apply Z.eqb_eq in E. apply (get_slot_Some db) in G. destruct G as [Hs _].
  apply (slot_id_inj db _ _ (WF_slot_ids db Hwf) Hs Hn) in E. congruence.
Qed.

Lemma bookings_after_find_and_book db now user service_id old_slot auto :
  WF db ->
  forall k s, get_slot db k = Some s -> Slot.booked s = true ->
    exists s',
      get_slot (fst (_find_and_book_next_slot db now user service_id
                       old_slot auto)) k = Some s'
      /\ same_booking s s'.
Proof.
  intros Hwf k s G B. rewrite find_and_book_get, G. simpl.
  assert (same_booking s (if Slot.id s =? Slot.id old_slot
                          then Slot.set_status "no-show" s else s)) as H1.
  { destruct (Slot.id s =? Slot.id old_slot);
      [now apply same_booking_set_status | now apply same_booking_refl]. }
  destruct (next_slot_query db service_id now) as [n|] eqn:Q;
    [|eexists; split; [reflexivity | exact H1]].
  destruct (Slot.id s =? Slot.id n) eqn:E;
    [|eexists; split; [reflexivity | exact H1]].
  exfalso. apply Z.eqb_eq in E.
  apply next_slot_query_Some in Q. destruct Q as (Hn & _ & Bn & _).
  apply get_slot_Some in G. destruct G as [Hs _].
  apply (slot_id_inj db _ _ (WF_slot_ids db Hwf) Hs Hn) in E. congruence.
Qed.

Lemma fold_delete_service_rows l :
  forall db, exists q,
    slots (fold_left delete_service_rows l db) = filter q (slots db).
Proof.
  induction l as [|v l IH]; intros db; simpl.
  - exists (fun _ => true). induction (slots db) as [|x r IHr];
      simpl; congruence.
  - destruct (IH (delete_service_rows db v)) as [q Hq].
    exists (fun s => negb (Slot.service_id s =? Service.id v) && q s).
    rewrite Hq. simpl. induction (slots db) as [|x r IHr]; simpl;
      [reflexivity|].
    destruct (negb _); simpl; [|exact IHr].
    destruct (q x); [now rewrite IHr | exact IHr].
Qed.

Ltac resolve_user_kb :=
  unfold login_required, admin_required;
  destruct (get_current_user _ _) as [user|]; simpl;
  try apply keeps_bookings_refl;
  try match goal with
      | |- context [String.eqb (User.role ?u) "admin"] =>
          destruct (String.eqb (User.role u) "admin"); simpl;
          try apply keeps_bookings_refl
      end.

(** In a well-formed database, a request deletes a booked row or leaves it
    the same booking: [booked], [booked_by_id] and [auto_rescheduled] stay,
    and the status stays or moves to [no-show] or [arrived].  A booking that
    an automatic reschedule produced therefore never passes the filter of
    the reschedule candidate, which asks for [auto_rescheduled = false]. *)
Lemma handle_keeps_bookings fromisoformat generate_password_hash db session
  r :
  WF db ->
  keeps_bookings db (handle fromisoformat generate_password_hash db session r).
Proof.
  intros Hwf. destruct r; simpl.
  - unfold api_register.
    destruct (negb _); simpl; [apply keeps_bookings_refl|].
    destruct (first _); simpl; [apply keeps_bookings_refl|].
    now apply keeps_bookings_slots.
  - unfold api_admin_create_service. resolve_user_kb.
    destruct (negb _); simpl; [apply keeps_bookings_refl|].
    now apply keeps_bookings_slots.
  - unfold api_admin_delete_service. resolve_user_kb.
    destruct (owned_service _ _ _) as [v|]; simpl;
      [|apply keeps_bookings_refl].
    now apply (keeps_bookings_filter db _
                 (fun s => negb (Slot.service_id s =? Service.id v))).
  - unfold api_admin_delete_all_services. resolve_user_kb.
    destruct (fold_delete_service_rows
                (filter (fun v => Service.admin_id v =? User.id user)
                        (services db)) db) as [q Hq].
    now apply (keeps_bookings_filter db _ q).
  - unfold api_admin_create_slot. resolve_user_kb.
    destruct (owned_service _ _ _) as [v|]; simpl;
      [|apply keeps_bookings_refl].
    destruct time_str as [ts|]; simpl; [|apply keeps_bookings_refl].
    destruct (negb _); simpl; [apply keeps_bookings_refl|].
    destruct (fromisoformat ts) as [|t0|t0]; simpl;
      try apply keeps_bookings_refl.
    destruct (t0 <=? now); simpl; [apply keeps_bookings_refl|].
    eapply keeps_bookings_app. reflexivity.
  - unfold api_admin_delete_slot. resolve_user_kb.
    destruct (owned_service _ _ _); simpl; [|apply keeps_bookings_refl].
    destruct (first _) as [x|]; simpl; [|apply keeps_bookings_refl].
    now apply (keeps_bookings_filter db _
                 (fun s => negb (Slot.id s =? Slot.id x))).
  - unfold api_book_slot. resolve_user_kb.
    destruct slot_id as [k0|]; simpl; [|apply keeps_bookings_refl].
    destruct (k0 =? 0); simpl; [apply keeps_bookings_refl|].
    destruct (get_slot db k0) as [n|] eqn:G; simpl;
      [|apply keeps_bookings_refl].
    destruct (Slot.booked n) eqn:Bn; simpl; [apply keeps_bookings_refl|].
    intros k s Gs Bs. right. exists s.
    apply get_slot_Some in G. destruct G as [Hn _].
    split; [|now apply same_booking_refl].
    now apply (bookings_after_book db (book_manual user now) n).
  - unfold api_list_user_bookings. resolve_user_kb.
    intros k s Gs Bs. right.
    destruct (bookings_after_map db (mark_second_misses db user now) _
                (mark_second_misses_slots db user now)) with (k := k) (s := s)
      as [s1 [G1 S1]]; try assumption.
    { intros x. destruct (existsb _ _); tauto. }
    destruct (missed_candidate _ user now) as [c|];
      [|exists s1; now split].
    destruct (bookings_after_find_and_book
                (mark_second_misses db user now) now' user
                (Slot.service_id c) c true
                (WF_mark_second_misses db user now Hwf) k s1 G1)
      as [s2 [G2 S2]]; [apply S1|].
    exists s2. split; [exact G2 | now apply (same_booking_trans s s1 s2)].
  - unfold api_mark_arrived. resolve_user_kb.
    destruct (own_booking _ _ _) as [x|]; simpl;
      [|apply keeps_bookings_refl].
    intros k s Gs Bs. right.
    now apply (bookings_after_status_write db mark_arrived (Slot.id x));
      [right|..].
  - unfold api_find_next_slot. resolve_user_kb.
    destruct (own_booking _ _ _) as [o|]; simpl;
      [|apply keeps_bookings_refl].
    intros k s Gs Bs. right.
    destruct (bookings_after_find_and_book db now user (Slot.service_id o) o
                false Hwf k s Gs Bs) as [s' [G' S']].
    exists s'. split; [|exact S'].
    now destruct (_find_and_book_next_slot _ _ _ _ _ _) as [d [n|]].
  - unfold api_admin_mark_arrived. resolve_user_kb.
    destruct (get_slot db slot_id) as [x|]; simpl;
      [|apply keeps_bookings_refl].
    destruct (negb _); simpl; [apply keeps_bookings_refl|].
    intros k s Gs Bs. right.
    now apply (bookings_after_status_write db mark_arrived (Slot.id x));
      [right|..].
Qed.

(** ** Booking a slot *)

Lemma first_filter_find {A : Type} (p : A -> bool) l :
  first (filter p l) = find p l.
Proof.
  induction l as [|x l IH]; simpl; [reflexivity|].
  destruct (p x); [reflexivity | exact IH].
Qed.

Lemma get_slot_book_manual db user now s :
  NoDup (map Slot.id (slots db)) -> In s (slots db) ->
  let db' :=
    with_slots db
      (update_slot (book_manual user now) (Slot.id s) (slots db)) in
  get_slot db' (Slot.id s) = Some (book_manual user now s)
  /\ forall k, k <> Slot.id s -> get_slot db' k = get_slot db k.
Proof.
  intros Hnd Hs. unfold get_slot; simpl. split.
  - rewrite find_update_slot by reflexivity.
    rewrite (find_id_In _ s Hnd Hs). simpl. now rewrite Z.eqb_refl.
  - intros k Hk. rewrite find_update_slot by reflexivity.
    destruct (find (fun r => Slot.id r =? k) (slots db)) as [r|] eqn:G;
      [|reflexivity].
    apply (get_slot_Some db) in G. destruct G as [_ <-]. simpl.
    apply Z.eqb_neq in Hk. now rewrite Hk.
Qed.


(** C8.  Booking checks nothing about the time of the slot: for every slot of
    the table that is not booked, whatever its time and the clock, the
    request answers 200 and leaves the slot booked for the caller. *)
Theorem book_slot_ignores_time
  (db : DB) (session : option Z) (user : User.t) (s : Slot.t) (now : Z) :
  wf db = true ->
  get_current_user db session = Some user ->
  In s (slots db) ->
  Slot.booked s = false ->
  let res := api_book_slot db session (Some (Slot.id s)) now in
  fst (snd res) = 200
  /\ exists s', get_slot (fst res) (Slot.id s) = Some s'
       /\ Slot.time s' = Slot.time s
       /\ Slot.booked s' = true
       /\ Slot.booked_by_id s' = Some (User.id user)
       /\ Slot.status s' = "booked".
Proof.
  intros Hwf Hu Hs Hb res. apply wf_WF in Hwf.
  pose proof (WF_slot_ids db Hwf) as Hnd.
  pose proof (WF_slot_pos db Hwf s Hs) as Hpos.
  unfold res, api_book_slot, login_required. rewrite Hu.
  destruct (Slot.id s =? 0) eqn:Z0; [apply Z.eqb_eq in Z0; lia|].
  rewrite (get_slot_In db s Hnd Hs), Hb.
  split; [reflexivity|]. exists (book_manual user now s).
  destruct (get_slot_book_manual db user now s Hnd Hs) as [G1 _].
  split; [exact G1 | now repeat split].
Qed.

(** ** The manual reschedule *)




(** ** Deleting a service *)

Lemma owned_service_None db user service_id :
  owned_service db user service_id = None ->
  forall v, In v (services db) -> Service.id v = service_id ->
    Service.admin_id v <> User.id user.
Proof.
  unfold owned_service. rewrite first_filter_find. intros H v Hv E A.
  apply (find_none _ _ H) in Hv.
  rewrite andb_false_iff, !Z.eqb_neq in Hv. tauto.
Qed.


(** ** Registration *)

(** C10.  Registration needs no session and takes the role from the request:
    when the fields are filled and the email is new, the created account has
    role [admin] if the request says [admin], and role [user] for every
    other value of the field (absent, empty, [user] or anything else). *)
Theorem register_role_from_request
  (generate_password_hash : string -> string)
  (db : DB) (session : option Z) (data : RegisterData) (now : Z) :
  let name := Py.strip (Py.or_str (reg_name data) "") in
  let email := Py.lower (Py.strip (Py.or_str (reg_email data) "")) in
  let password := Py.or_str (reg_password data) "" in
  let phone := Py.strip (Py.or_str (reg_phone data) "") in
  let place := Py.strip (Py.or_str (reg_place data) "") in
  name <> "" -> email <> "" -> password <> "" -> phone <> "" ->
  place <> "" ->
  (forall u, In u (users db) -> User.email u <> email) ->
  exists user,
    api_register generate_password_hash db session data now
    = (with_users db (users db ++ [user]), Some (User.id user),
       (200, user_json user))
    /\ User.email user = email
    /\ (reg_role data = Some "admin" -> User.role user = "admin")
    /\ (reg_role data <> Some "admin" -> User.role user = "user").
Proof.
  intros name email password phone place Hn He Hp Hph Hpl Hnew.
  unfold api_register. fold name email password phone place.
  assert (forall x, x <> "" -> Py.truthy_str x = true) as Ht.
  { intros x Hx. unfold Py.truthy_str. apply negb_true_iff.
    now apply String.eqb_neq. }
  rewrite !Ht by assumption. simpl.
  rewrite first_filter_find.
  destruct (find _ (users db)) as [u|] eqn:F.
  - apply find_some in F. destruct F as [Hu E]. apply String.eqb_eq in E.
    now apply Hnew in Hu.
  - exists (User.mk (next_id (map User.id (users db))) name email
                    (generate_password_hash password) (Some phone)
                    (Some place)
                    (if Py.in_user_admin (Py.or_str (reg_role data) "user")
                     then Py.or_str (reg_role data) "user" else "user")
                    now).
    split; [reflexivity|]. simpl. split; [reflexivity|]. split.
    + intros ->. reflexivity.
    + intros Hr. destruct (reg_role data) as [r|]; [|reflexivity].
      unfold Py.or_str, Py.in_user_admin.
      destruct (String.eqb r "") eqn:E0; [reflexivity|].
      destruct (String.eqb r "user") eqn:E1.
      * apply String.eqb_eq in E1. now subst r.
      * destruct (String.eqb r "admin") eqn:E2; [|reflexivity].
        apply String.eqb_eq in E2. congruence.
Qed.

(** ** Creating a slot *)

(** The request of an admin who owns the service, with a naive timestamp:
    400 and no slot when the string does not parse or the time is not after
    [now], and otherwise one new slot, [available] and unbooked. *)
Lemma create_slot_naive
  (fromisoformat : string -> iso_result)
  (db : DB) (session : option Z) (user : User.t) (service : Service.t)
  (service_id : Z) (time_str : string) (now : Z) :
  get_current_user db session = Some user ->
  User.role user = "admin" ->
  owned_service db user service_id = Some service ->
  let res :=
    api_admin_create_slot fromisoformat db session service_id
                          (Some time_str) now in
  (time_str = "" \/ fromisoformat time_str = ValueError ->
   fst (snd res) = 400 /\ fst res = db)
  /\ (forall t, time_str <> "" -> fromisoformat time_str = Naive t ->
        t <= now -> fst (snd res) = 400 /\ fst res = db)
  /\ (forall t, time_str <> "" -> fromisoformat time_str = Naive t ->
        now < t ->
        let slot :=
          Slot.mk (next_id (map Slot.id (slots db))) service_id t false None
                  None None "available" false false in
        res = (with_slots db (slots db ++ [slot]), (201, slot_json slot))).
Proof.
  intros Hu Hr O res. unfold res, api_admin_create_slot, admin_required.
  rewrite Hu, Hr, O. simpl.
  destruct (owned_service_In _ _ _ _ O) as (_ & Ev & _).
  unfold Py.truthy_str. rewrite negb_involutive.
  destruct (String.eqb time_str "") eqn:E0.
  - apply String.eqb_eq in E0. split; [now intros _|].
    split; intros t Hne; contradiction.
  - split; [|split].
    + intros [E | ->]; [|now split]. subst time_str. discriminate.
    + intros t _ -> Ht. apply Z.leb_le in Ht. rewrite Ht. now split.
    + intros t _ -> Ht. apply Z.leb_gt in Ht. rewrite Ht, Ev. reflexivity.
Qed.

(** C6.  A create-slot request of the owner of the service whose timestamp
    string carries a UTC offset: [fromisoformat] accepts it and returns an
    aware datetime, the comparison with the naive [utcnow()] raises, and the
    answer is 500 with no slot created, be the time before or after [now]. *)
Theorem create_slot_aware_timestamp
  (fromisoformat : string -> iso_result)
  (db : DB) (session : option Z) (user : User.t) (service : Service.t)
  (service_id : Z) (time_str : string) (t now : Z) :
  get_current_user db session = Some user ->
  User.role user = "admin" ->
  owned_service db user service_id = Some service ->
  time_str <> "" ->
  fromisoformat time_str = Aware t ->
  api_admin_create_slot fromisoformat db session service_id (Some time_str)
                        now
  = (db, (500, uncaught "TypeError")).
Proof.
  intros Hu Hr O Hne Hp. unfold api_admin_create_slot, admin_required.
  rewrite Hu, Hr, O. simpl. unfold Py.truthy_str. rewrite negb_involutive.
  apply String.eqb_neq in Hne. now rewrite Hne, Hp.
Qed.

(** ** The life cycle of users, services and slots *)

Lemma NoDup_snoc_any {A : Type} (l : list A) x :
  NoDup l -> ~ In x l -> NoDup (l ++ [x]).
Proof.
  intros Hl Hx. apply NoDup_rev in Hl.
  rewrite <- (rev_involutive (l ++ [x])). apply NoDup_rev.
  rewrite rev_app_distr. simpl. constructor; [|exact Hl].
  rewrite <- in_rev. exact Hx.
Qed.

Lemma current_user_In db session user :
  get_current_user db session = Some user ->
  In user (users db) /\ session = Some (User.id user) /\ User.id user <> 0.
Proof.
  unfold get_current_user, get_user. destruct session as [k|]; [|discriminate].
  destruct (k =? 0) eqn:E; [discriminate|]. intros H. apply find_some in H.
  destruct H as [Hin Ek]. apply Z.eqb_eq in Ek. apply Z.eqb_neq in E.
  subst k. now repeat split.
Qed.

Lemma own_booking_Some db user slot_id x :
  own_booking db user slot_id = Some x ->
  In x (slots db) /\ Slot.id x = slot_id
  /\ Slot.booked_by_id x = Some (User.id user).
Proof.
  unfold own_booking. rewrite first_filter_find. intros H.
  apply find_some in H. destruct H as [Hin Hf].
  rewrite andb_true_iff, Z.eqb_eq, col_eq_iff in Hf. tauto.
Qed.

Lemma WF_booked_by db s uid :
  WF db -> In s (slots db) -> Slot.booked_by_id s = Some uid ->
  Slot.booked s = true.
Proof.
  intros Hwf Hs E. pose proof (WF_booked db Hwf s Hs) as Hc.
  apply booked_consistent_iff in Hc. apply Hc. congruence.
Qed.

Lemma role_coerced role :
  let r := if Py.in_user_admin role then role else "user" in
  r = "user" \/ r = "admin".
Proof.
  unfold Py.in_user_admin.
  destruct (String.eqb role "user") eqn:E1; simpl.
  - left. now apply String.eqb_eq.
  - destruct (String.eqb role "admin") eqn:E2; [|now left].
    right. now apply String.eqb_eq.
Qed.

Section Lifecycle.

Variable fromisoformat : string -> iso_result.
Variable generate_password_hash : string -> string.

(** A property of well-formed databases kept by each write of a handler,
    given what the handler has checked before the write. *)
Variable I : DB -> Prop.

Hypothesis J_WF : forall db, I db -> WF db.
Hypothesis J_register :
  forall db user, I db ->
    User.id user = next_id (map User.id (users db)) ->
    User.role user = "user" \/ User.role user = "admin" ->
    (forall u, In u (users db) -> User.email u <> User.email user) ->
    I (with_users db (users db ++ [user])).
Hypothesis J_add_service :
  forall db v user, I db -> In user (users db) ->
    User.role user = "admin" -> Service.admin_id v = User.id user ->
    Service.id v = next_id (map Service.id (services db)) ->
    I (with_services db (services db ++ [v])).
Hypothesis J_status :
  forall db (c : Slot.t -> bool) f, I db ->
    f = Slot.set_status "no-show" \/ f = mark_arrived ->
    (forall s, In s (slots db) -> c s = true -> Slot.booked s = true) ->
    I (with_slots db (map (fun s => if c s then f s else s) (slots db))).
Hypothesis J_book :
  forall db (c : Slot.t -> bool) user now f, I db -> In user (users db) ->
    f = book_manual user now \/ (exists auto, f = book_for user now auto) ->
    (forall s, In s (slots db) -> c s = true -> Slot.booked s = false) ->
    I (with_slots db (map (fun s => if c s then f s else s) (slots db))).
Hypothesis J_delete_service :
  forall db v, I db -> I (delete_service_rows db v).
Hypothesis J_delete_slot :
  forall db pk, I db ->
    I (with_slots db (filter (fun s => negb (Slot.id s =? pk)) (slots db))).
Hypothesis J_add_slot :
  forall db v t, I db -> In v (services db) ->
    I (with_slots db
         (slots db ++ [Slot.mk (next_id (map Slot.id (slots db)))
                               (Service.id v) t false None None None
                               "available" false false])).

Lemma same_key_same_row db x s :
  I db -> In x (slots db) -> In s (slots db) ->
  (Slot.id s =? Slot.id x) = true -> s = x.
Proof.
  intros Hdb Hx Hs E. apply Z.eqb_eq in E.
  now apply (slot_id_inj db _ _ (WF_slot_ids db (J_WF db Hdb))).
Qed.

Lemma J_status_row db f x :
  I db -> f = Slot.set_status "no-show" \/ f = mark_arrived ->
  In x (slots db) -> Slot.booked x = true ->
  I (with_slots db (update_slot f (Slot.id x) (slots db))).
Proof.
  intros Hdb Hf Hx Bx. unfold update_slot.
  apply (J_status db (fun s => Slot.id s =? Slot.id x)); try assumption.
  intros s Hs E. now rewrite (same_key_same_row db x s Hdb Hx Hs E).
Qed.

Lemma J_book_row db user now f n :
  I db -> In user (users db) ->
  f = book_manual user now \/ (exists auto, f = book_for user now auto) ->
  In n (slots db) -> Slot.booked n = false ->
  I (with_slots db (update_slot f (Slot.id n) (slots db))).
Proof.
  intros Hdb Hu Hf Hn Bn. unfold update_slot.
  apply (J_book db (fun s => Slot.id s =? Slot.id n) user now);
    try assumption.
  intros s Hs E. now rewrite (same_key_same_row db n s Hdb Hn Hs E).
Qed.

Lemma J_find_and_book db now user service_id old_slot auto :
  I db -> In user (users db) -> In old_slot (slots db) ->
  Slot.booked old_slot = true ->
  I (fst (_find_and_book_next_slot db now user service_id old_slot auto)).
Proof.
  intros Hdb Hu Hold Bold. unfold _find_and_book_next_slot.
  pose proof (J_status_row db (Slot.set_status "no-show") old_slot Hdb
                (or_introl eq_refl) Hold Bold) as H1.
  destruct (next_slot_query db service_id now) as [n|] eqn:Q; simpl;
    [|exact H1].
  apply next_slot_query_Some in Q. destruct Q as (Hn & _ & Bn & _).
  set (n1 := if Slot.id n =? Slot.id old_slot
             then Slot.set_status "no-show" n else n).
  assert (Slot.id n1 = Slot.id n /\ Slot.booked n1 = false) as [E1 B1]
    by (unfold n1; now destruct (Slot.id n =? Slot.id old_slot)).
  rewrite <- E1.
  apply (J_book_row _ user now (book_for user now auto) n1 H1);
    [exact Hu | right; now exists auto | | exact B1].
  simpl. unfold update_slot. apply in_map_iff. exists n. now split.
Qed.

Ltac resolve_caller :=
  unfold login_required, admin_required;
  let U := fresh "U" in
  destruct (get_current_user _ _) as [user|] eqn:U; simpl; try assumption;
  [apply current_user_In in U; destruct U as (U & _ & _)];
  try match goal with
      | |- context [String.eqb (User.role ?u) "admin"] =>
          let R := fresh "R" in
          destruct (String.eqb (User.role u) "admin") eqn:R; simpl;
          try assumption; [apply String.eqb_eq in R]
      end.

Lemma handle_keeps db session r :
  I db -> I (handle fromisoformat generate_password_hash db session r).
Proof.
  intros Hdb. pose proof (J_WF db Hdb) as Hwf. destruct r; simpl.
  - unfold api_register.
    destruct (negb _); simpl; [exact Hdb|].
    rewrite first_filter_find.
    destruct (find _ (users db)) eqn:F; simpl; [exact Hdb|].
    apply J_register; [exact Hdb | reflexivity | apply role_coerced |].
    intros u Hu. apply (find_none _ _ F) in Hu. simpl.
    now apply String.eqb_neq.
  - unfold api_admin_create_service. resolve_caller.
    destruct (negb _); simpl; [exact Hdb|].
    now apply (J_add_service db _ user).
  - unfold api_admin_delete_service. resolve_caller.
    destruct (owned_service _ _ _); simpl; [|exact Hdb].
    now apply J_delete_service.
  - unfold api_admin_delete_all_services. resolve_caller.
    generalize (filter (fun v => Service.admin_id v =? User.id user)
                       (services db)).
    intros l. clear U Hwf. revert db Hdb.
    induction l as [|v l IH]; intros db Hdb; simpl; [exact Hdb|].
    apply IH. now apply J_delete_service.
  - unfold api_admin_create_slot. resolve_caller.
    destruct (owned_service _ _ _) as [v|] eqn:O; simpl; [|exact Hdb].
    destruct time_str as [ts|]; simpl; [|exact Hdb].
    destruct (negb _); simpl; [exact Hdb|].
    destruct (fromisoformat ts) as [|t0|t0]; simpl; try exact Hdb.
    destruct (t0 <=? now); simpl; [exact Hdb|].
    apply J_add_slot; [exact Hdb|]. now apply owned_service_In in O.
  - unfold api_admin_delete_slot. resolve_caller.
    destruct (owned_service _ _ _); simpl; [|exact Hdb].
    destruct (first _); simpl; [|exact Hdb]. now apply J_delete_slot.
  - unfold api_book_slot. resolve_caller.
    destruct slot_id as [k|]; simpl; [|exact Hdb].
    destruct (k =? 0); simpl; [exact Hdb|].
    destruct (get_slot db k) as [n|] eqn:G; simpl; [|exact Hdb].
    destruct (Slot.booked n) eqn:Bn; simpl; [exact Hdb|].
    apply get_slot_Some in G. destruct G as [Hn _].
    now apply (J_book_row db user now); [ | | left | | ].
  - unfold api_list_user_bookings. resolve_caller.
    assert (I (mark_second_misses db user now)) as H1.
    { assert (mark_second_misses db user now
              = with_slots db (slots (mark_second_misses db user now)))
        as -> by reflexivity.
      rewrite mark_second_misses_slots.
      apply (J_status db (fun s => existsb (fun m => Slot.id s =? Slot.id m)
                                           (second_misses db user now)));
        [exact Hdb | now left |].
      intros s Hs E. apply existsb_exists in E. destruct E as [m [Hm E]].
      unfold second_misses in Hm. apply filter_In in Hm.
      destruct Hm as [Hm Fm]. unfold join_Service in Hm.
      apply filter_In in Hm. destruct Hm as [Hm _].
      rewrite (same_key_same_row db m s Hdb Hm Hs E).
      apply missed_filter_iff in Fm. destruct Fm as [[Fm _] _].
      now apply (WF_booked_by db m (User.id user)). }
    destruct (missed_candidate _ user now) as [c|] eqn:C; [|exact H1].
    pose proof (J_WF _ H1) as Hwf1.
    apply (missed_candidate_Some _ _ _ _ Hwf1) in C.
    destruct C as [[Hc [[Bc _] _]] _].
    apply J_find_and_book; [exact H1 | exact U | exact Hc |].
    now apply (WF_booked_by (mark_second_misses db user now) c
                 (User.id user)).
  - unfold api_mark_arrived. resolve_caller.
    destruct (own_booking _ _ _) as [x|] eqn:O; simpl; [|exact Hdb].
    apply own_booking_Some in O. destruct O as (Hx & _ & Bx).
    apply J_status_row; [exact Hdb | now right | exact Hx |].
    now apply (WF_booked_by db x (User.id user)).
  - unfold api_find_next_slot. resolve_caller.
    destruct (own_booking _ _ _) as [o|] eqn:O; simpl; [|exact Hdb].
    apply own_booking_Some in O. destruct O as (Ho & _ & Bo).
    pose proof (J_find_and_book db now user (Slot.service_id o) o false Hdb
                  U Ho (WF_booked_by db o _ Hwf Ho Bo)) as H.
    destruct (_find_and_book_next_slot _ _ _ _ _ _) as [d [n|]]; exact H.
  - unfold api_admin_mark_arrived. resolve_caller.
    destruct (get_slot db slot_id) as [x|] eqn:G; simpl; [|exact Hdb].
    destruct (Slot.booked x) eqn:Bx; simpl; [|exact Hdb].
    apply get_slot_Some in G. destruct G as [Hx _].
    apply J_status_row; [exact Hdb | now right | exact Hx | exact Bx].
Qed.

End Lifecycle.

Lemma Inv_register db user :
  Inv db ->
  User.id user = next_id (map User.id (users db)) ->
  User.role user = "user" \/ User.role user = "admin" ->
  (forall u, In u (users db) -> User.email u <> User.email user) ->
  Inv (with_users db (users db ++ [user])).
Proof.
  intros [H1 H2 H3 H4 H5 H6 H7 H8 H9 H10] Eid Hrole Hmail.
  constructor; simpl; try assumption.
  - now apply WF_users.
  - rewrite map_app. simpl. apply NoDup_snoc; [exact H2|].
    rewrite Eid. apply next_id_fresh.
  - intros u Hu. apply in_app_or in Hu. destruct Hu as [Hu|[<-|[]]];
      [now apply H3|]. rewrite Eid. apply next_id_pos.
  - rewrite map_app. simpl. apply NoDup_snoc_any; [exact H4|].
    intros Hin. apply in_map_iff in Hin. destruct Hin as [u [E Hu]].
    now apply (Hmail u Hu).
  - intros u Hu. apply in_app_or in Hu. destruct Hu as [Hu|[<-|[]]];
      [now apply H5 | exact Hrole].
  - intros v Hv. destruct (H6 v Hv) as [u [Hu Eu]]. exists u.
    split; [apply in_or_app; now left | exact Eu].
  - intros s uid Hs E. destruct (H7 s uid Hs E) as [u [Hu Eu]]. exists u.
    split; [apply in_or_app; now left | exact Eu].
Qed.

Lemma Inv_add_service db v user :
  Inv db -> In user (users db) -> User.role user = "admin" ->
  Service.admin_id v = User.id user ->
  Service.id v = next_id (map Service.id (services db)) ->
  Inv (with_services db (services db ++ [v])).
Proof.
  intros [H1 H2 H3 H4 H5 H6 H7 H8 H9 H10] Hu Hr Ea Eid.
  constructor; simpl; try assumption.
  - now apply WF_add_service.
  - intros w Hw. apply in_app_or in Hw. destruct Hw as [Hw|[<-|[]]];
      [now apply H6|]. exists user. now repeat split.
Qed.

Lemma Inv_status db (c : Slot.t -> bool) f :
  Inv db -> f = Slot.set_status "no-show" \/ f = mark_arrived ->
  (forall s, In s (slots db) -> c s = true -> Slot.booked s = true) ->
  Inv (with_slots db (map (fun s => if c s then f s else s) (slots db))).
Proof.
  intros [H1 H2 H3 H4 H5 H6 H7 H8 H9 H10] Hf Hc.
  assert (forall s, Slot.booked (f s) = Slot.booked s
                    /\ Slot.booked_by_id (f s) = Slot.booked_by_id s
                    /\ Slot.booked_by_name (f s) = Slot.booked_by_name s
                    /\ Slot.booked_at (f s) = Slot.booked_at s) as Hkeep
    by (intros s; destruct Hf as [-> | ->]; now repeat split).
  constructor; simpl; try assumption.
  - apply WF_map; [exact H1|].
    apply (good_write_if f c).
    destruct Hf as [-> | ->];
      [apply good_write_set_status | apply good_write_mark_arrived].
  - intros s' uid Hs' E. apply in_map_iff in Hs'.
    destruct Hs' as [s [<- Hs]]. destruct (Hkeep s) as (_ & K2 & K3 & _).
    destruct (c s); [rewrite K2 in E; rewrite K3|]; now apply H7.
  - intros s' Hs' B. apply in_map_iff in Hs'. destruct Hs' as [s [<- Hs]].
    destruct (c s) eqn:C; [|now apply H8].
    destruct (Hkeep s) as (K1 & _). rewrite K1 in B.
    rewrite (Hc s Hs C) in B. discriminate.
  - intros s' Hs' B. apply in_map_iff in Hs'. destruct Hs' as [s [<- Hs]].
    destruct (c s) eqn:C; [|now apply H9].
    destruct (Hkeep s) as (K1 & _ & _ & K4). rewrite K1 in B.
    destruct (H9 s Hs B) as [_ Hat]. unfold taken. rewrite K4.
    split; [|exact Hat]. destruct Hf as [-> | ->]; simpl; tauto.
  - intros s' Hs' E. apply in_map_iff in Hs'. destruct Hs' as [s [<- Hs]].
    destruct (c s) eqn:C; [|now apply H10].
    destruct Hf as [-> | ->]; [discriminate | reflexivity].
Qed.

Lemma Inv_book db (c : Slot.t -> bool) user now f :
  Inv db -> In user (users db) ->
  f = book_manual user now \/ (exists auto, f = book_for user now auto) ->
  (forall s, In s (slots db) -> c s = true -> Slot.booked s = false) ->
  Inv (with_slots db (map (fun s => if c s then f s else s) (slots db))).
Proof.
  intros [H1 H2 H3 H4 H5 H6 H7 H8 H9 H10] Hu Hf Hc.
  assert (forall s, Slot.booked (f s) = true
                    /\ Slot.booked_by_id (f s) = Some (User.id user)
                    /\ Slot.booked_by_name (f s) = Some (User.name user)
                    /\ Slot.booked_at (f s) = Some now
                    /\ Slot.status (f s) = "booked") as Hset
    by (intros s; destruct Hf as [-> | [auto ->]]; now repeat split).
  constructor; simpl; try assumption.
  - apply WF_map; [exact H1|].
    apply (good_write_if f c).
    destruct Hf as [-> | [auto ->]];
      [apply good_write_book_manual | apply good_write_book_for].
  - intros s' uid Hs' E. apply in_map_iff in Hs'.
    destruct Hs' as [s [<- Hs]]. destruct (Hset s) as (_ & K2 & K3 & _).
    destruct (c s); [|now apply H7].
    rewrite K2 in E. injection E as <-. exists user. now repeat split.
  - intros s' Hs' B. apply in_map_iff in Hs'. destruct Hs' as [s [<- Hs]].
    destruct (c s) eqn:C; [|now apply H8].
    destruct (Hset s) as (K1 & _). congruence.
  - intros s' Hs' B. apply in_map_iff in Hs'. destruct Hs' as [s [<- Hs]].
    destruct (c s) eqn:C; [|now apply H9].
    destruct (Hset s) as (_ & _ & _ & K4 & K5). unfold taken.
    rewrite K4, K5. split; [now left | discriminate].
  - intros s' Hs' E. apply in_map_iff in Hs'. destruct Hs' as [s [<- Hs]].
    destruct (c s) eqn:C; [|now apply H10].
    destruct (Hset s) as (_ & _ & _ & _ & K5). rewrite K5 in E.
    discriminate.
Qed.

Lemma Inv_delete_service db v : Inv db -> Inv (delete_service_rows db v).
Proof.
  intros [H1 H2 H3 H4 H5 H6 H7 H8 H9 H10].
  constructor; simpl; try assumption.
  - now apply WF_delete_service.
  - intros w Hw. apply filter_In in Hw. now apply H6.
  - intros s uid Hs. apply filter_In in Hs. now apply H7.
  - intros s Hs. apply filter_In in Hs. now apply H8.
  - intros s Hs. apply filter_In in Hs. now apply H9.
  - intros s Hs. apply filter_In in Hs. now apply H10.
Qed.

Lemma Inv_delete_slot db pk :
  Inv db ->
  Inv (with_slots db (filter (fun s => negb (Slot.id s =? pk)) (slots db))).
Proof.
  intros [H1 H2 H3 H4 H5 H6 H7 H8 H9 H10].
  constructor; simpl; try assumption.
  - now apply WF_delete_slot.
  - intros s uid Hs. apply filter_In in Hs. now apply H7.
  - intros s Hs. apply filter_In in Hs. now apply H8.
  - intros s Hs. apply filter_In in Hs. now apply H9.
  - intros s Hs. apply filter_In in Hs. now apply H10.
Qed.

Lemma Inv_add_slot db (v : Service.t) t :
  Inv db -> In v (services db) ->
  Inv (with_slots db
         (slots db ++ [Slot.mk (next_id (map Slot.id (slots db)))
                               (Service.id v) t false None None None
                               "available" false false])).
Proof.
  intros [H1 H2 H3 H4 H5 H6 H7 H8 H9 H10] Hv.
  constructor; simpl; try assumption.
  - now apply WF_add_slot.
  - intros s uid Hs. apply in_app_or in Hs. destruct Hs as [Hs|[<-|[]]];
      [now apply H7 | discriminate].
  - intros s Hs. apply in_app_or in Hs. destruct Hs as [Hs|[<-|[]]];
      [now apply H8|]. intros _. now repeat split.
  - intros s Hs. apply in_app_or in Hs. destruct Hs as [Hs|[<-|[]]];
      [now apply H9 | discriminate].
  - intros s Hs. apply in_app_or in Hs. destruct Hs as [Hs|[<-|[]]];
      [now apply H10 | discriminate].
Qed.

Lemma Inv_empty : Inv empty_db.
Proof.
  constructor; simpl; try (intros; contradiction); try constructor.
  all: try (now apply wf_WF).
  all: intros; contradiction.
Qed.

Lemma Inv_handle fromisoformat generate_password_hash db session r :
  Inv db -> Inv (handle fromisoformat generate_password_hash db session r).
Proof.
  apply handle_keeps.
  - apply Inv_wf.
  - apply Inv_register.
  - apply Inv_add_service.
  - apply Inv_status.
  - apply Inv_book.
  - apply Inv_delete_service.
  - apply Inv_delete_slot.
  - apply Inv_add_slot.
Qed.

Lemma reachable_Inv fromisoformat generate_password_hash db :
  reachable fromisoformat generate_password_hash db -> Inv db.
Proof.
  induction 1 as [|db session r _ IH]; [apply Inv_empty|].
  now apply Inv_handle.
Qed.

(** ** What holds in every reachable database *)

(** X1.  In every reachable database the status of a slot is one of
    [available], [booked], [arrived] and [no-show]: no request writes
    [cancelled] or any other value. *)
Theorem reachable_status_domain
  (fromisoformat : string -> iso_result)
  (generate_password_hash : string -> string) (db : DB) (s : Slot.t) :
  reachable fromisoformat generate_password_hash db ->
  In s (slots db) ->
  Slot.status s = "available" \/ Slot.status s = "booked"
  \/ Slot.status s = "arrived" \/ Slot.status s = "no-show".
Proof.
  intros H Hs. apply reachable_Inv in H.
  destruct (Slot.booked s) eqn:B.
  - destruct (Inv_taken db H s Hs B) as [[E|[E|E]] _]; tauto.
  - destruct (Inv_free db H s Hs B) as (_ & _ & _ & E & _). now left.
Qed.

(** X2.  In every reachable database a slot is unbooked exactly when its
    status is [available], and an unbooked slot is as it was created: no
    booker, no booking time, not arrived, not an automatic reschedule. *)
Theorem reachable_unbooked_iff_available
  (fromisoformat : string -> iso_result)
  (generate_password_hash : string -> string) (db : DB) (s : Slot.t) :
  reachable fromisoformat generate_password_hash db ->
  In s (slots db) ->
  (Slot.booked s = false <-> Slot.status s = "available")
  /\ (Slot.booked s = false -> pristine s).
Proof.
  intros H Hs. apply reachable_Inv in H. split.
  - split.
    + intros B. now destruct (Inv_free db H s Hs B) as (_ & _ & _ & E & _).
    + intros E. destruct (Slot.booked s) eqn:B; [|reflexivity].
      destruct (Inv_taken db H s Hs B) as [[E'|[E'|E']] _]; congruence.
  - now apply (Inv_free db H).
Qed.

(** X3.  In every reachable database a slot whose status is [arrived] has
    the [arrived] flag and is booked, and a slot with the [arrived] flag is
    booked. *)
Theorem reachable_arrived_consistent
  (fromisoformat : string -> iso_result)
  (generate_password_hash : string -> string) (db : DB) (s : Slot.t) :
  reachable fromisoformat generate_password_hash db ->
  In s (slots db) ->
  (Slot.status s = "arrived" ->
   Slot.arrived s = true /\ Slot.booked s = true)
  /\ (Slot.arrived s = true -> Slot.booked s = true).
Proof.
  intros H Hs. apply reachable_Inv in H.
  assert (Slot.arrived s = true -> Slot.booked s = true) as Ha.
  { intros A. destruct (Slot.booked s) eqn:B; [reflexivity|].
    destruct (Inv_free db H s Hs B) as (_ & _ & _ & _ & _ & E). congruence. }
  split; [|exact Ha].
  intros E. pose proof (Inv_arrived db H s Hs E) as A. auto.
Qed.

(** X4.  In every reachable database the [booked_by_id] of a slot is the id
    of a user of the table, and [booked_by_name] is the name of that user. *)
Theorem reachable_booker_exists
  (fromisoformat : string -> iso_result)
  (generate_password_hash : string -> string) (db : DB) (s : Slot.t)
  (uid : Z) :
  reachable fromisoformat generate_password_hash db ->
  In s (slots db) ->
  Slot.booked_by_id s = Some uid ->
  exists u, get_user db uid = Some u
            /\ Slot.booked_by_name s = Some (User.name u).
Proof.
  intros H Hs E. apply reachable_Inv in H.
  destruct (Inv_booker db H s uid Hs E) as [u (Hu & Eu & En)].
  exists u. split; [|exact En]. unfold get_user. subst uid.
  pose proof (Inv_user_ids db H) as Hnd. revert Hnd Hu.
  induction (users db) as [|x l IH]; simpl; [tauto|].
  intros Hnd [->|Hu]; [now rewrite Z.eqb_refl|].
  inversion Hnd as [|? ? Hx Hl]; subst.
  destruct (User.id x =? User.id u) eqn:Ex; [|now apply IH].
  apply Z.eqb_eq in Ex. exfalso. apply Hx. rewrite Ex. now apply in_map.
Qed.

(** X5.  In every reachable database the users have distinct positive ids
    and distinct emails, and the role of each is [user] or [admin]. *)
Theorem reachable_users
  (fromisoformat : string -> iso_result)
  (generate_password_hash : string -> string) (db : DB) :
  reachable fromisoformat generate_password_hash db ->
  NoDup (map User.id (users db))
  /\ NoDup (map User.email (users db))
  /\ forall u, In u (users db) ->
       0 < User.id u /\ (User.role u = "user" \/ User.role u = "admin").
Proof.
  intros H. apply reachable_Inv in H.
  split; [apply (Inv_user_ids db H)|]. split; [apply (Inv_emails db H)|].
  intros u Hu. split; [now apply (Inv_user_pos db H) |
                       now apply (Inv_roles db H)].
Qed.

(** X6.  In every reachable database the owner of each service is a user of
    the table whose role is [admin]. *)
Theorem reachable_service_owner_admin
  (fromisoformat : string -> iso_result)
  (generate_password_hash : string -> string) (db : DB) (v : Service.t) :
  reachable fromisoformat generate_password_hash db ->
  In v (services db) ->
  exists u, In u (users db) /\ User.id u = Service.admin_id v
            /\ User.role u = "admin".
Proof. intros H Hv. apply reachable_Inv in H. now apply (Inv_owner db H). Qed.

(** X7.  In every reachable database the slots and the services have
    distinct positive ids and every slot belongs to a service of the table:
    no slot outlives its service. *)
Theorem reachable_slots_reference_services
  (fromisoformat : string -> iso_result)
  (generate_password_hash : string -> string) (db : DB) :
  reachable fromisoformat generate_password_hash db ->
  NoDup (map Slot.id (slots db))
  /\ NoDup (map Service.id (services db))
  /\ forall s, In s (slots db) ->
       0 < Slot.id s
       /\ exists v, In v (services db)
                    /\ Service.id v = Slot.service_id s.
Proof.
  intros H. apply reachable_wf, wf_WF in H.
  split; [apply (WF_slot_ids db H)|].
  split; [apply (WF_service_ids db H)|].
  intros s Hs. split; [now apply (WF_slot_pos db H)|].
  pose proof (WF_service db H s Hs) as E. unfold has_service in E.
  apply existsb_exists in E. destruct E as [v [Hv E]].
  exists v. split; [exact Hv | now apply Z.eqb_eq].
Qed.

(** X8.  No request unbooks a slot or gives it to someone else: from a
    reachable database, a booked slot is, after any request, either deleted
    or the same booking (same booker, time, service and [auto_rescheduled]),
    its status unchanged or moved to [no-show] or [arrived].  The old slot of
    a reschedule stays booked. *)
Theorem request_keeps_bookings
  (fromisoformat : string -> iso_result)
  (generate_password_hash : string -> string) (db : DB)
  (session : option Z) (r : Request) :
  reachable fromisoformat generate_password_hash db ->
  keeps_bookings db (handle fromisoformat generate_password_hash db session r).
Proof.
  intros H. apply handle_keeps_bookings. apply reachable_wf in H.
  now apply wf_WF.
Qed.

Lemma find_and_book_users db now user service_id old_slot auto :
  users (fst (_find_and_book_next_slot db now user service_id old_slot auto))
  = users db
  /\ services (fst (_find_and_book_next_slot db now user service_id old_slot
                      auto))
     = services db.
Proof.
  unfold _find_and_book_next_slot.
  now destruct (next_slot_query db service_id now).
Qed.

Lemma fold_delete_users l :
  forall db, users (fold_left delete_service_rows l db) = users db.
Proof.
  induction l as [|v l IH]; intros db; simpl; [reflexivity|].
  now rewrite IH.
Qed.

(** X9.  No request deletes or rewrites a user: the users after a request
    are the users before it, followed by the account a registration made. *)
Theorem request_keeps_users
  (fromisoformat : string -> iso_result)
  (generate_password_hash : string -> string) (db : DB)
  (session : option Z) (r : Request) :
  exists l,
    users (handle fromisoformat generate_password_hash db session r)
    = users db ++ l
    /\ (List.length l <= 1)%nat.
Proof.
  assert (exists l, users db = users db ++ l /\ (List.length l <= 1)%nat)
    as Same
    by (exists []; rewrite app_nil_r; split; [reflexivity | simpl; lia]).
  destruct r; simpl.
  - unfold api_register. destruct (negb _); simpl; [exact Same|].
    destruct (first _); simpl; [exact Same|].
    eexists. split; [reflexivity | simpl; lia].
  - unfold api_admin_create_service, admin_required.
    destruct (get_current_user _ _) as [u|]; simpl; [|exact Same].
    destruct (String.eqb _ _); simpl; [|exact Same].
    now destruct (negb _).
  - unfold api_admin_delete_service, admin_required.
    destruct (get_current_user _ _) as [u|]; simpl; [|exact Same].
    destruct (String.eqb _ _); simpl; [|exact Same].
    now destruct (owned_service _ _ _).
  - unfold api_admin_delete_all_services, admin_required.
    destruct (get_current_user _ _) as [u|]; simpl; [|exact Same].
    destruct (String.eqb _ _); simpl; [|exact Same].
    now rewrite fold_delete_users.
  - unfold api_admin_create_slot, admin_required.
    destruct (get_current_user _ _) as [u|]; simpl; [|exact Same].
    destruct (String.eqb _ _); simpl; [|exact Same].
    destruct (owned_service _ _ _); simpl; [|exact Same].
    destruct time_str as [ts|]; simpl; [|exact Same].
    destruct (negb _); simpl; [exact Same|].
    destruct (fromisoformat ts) as [|t0|t0]; simpl; try exact Same.
    now destruct (t0 <=? now).
  - unfold api_admin_delete_slot, admin_required.
    destruct (get_current_user _ _) as [u|]; simpl; [|exact Same].
    destruct (String.eqb _ _); simpl; [|exact Same].
    destruct (owned_service _ _ _); simpl; [|exact Same].
    now destruct (first _).
  - unfold api_book_slot, login_required.
    destruct (get_current_user _ _) as [u|]; simpl; [|exact Same].
    destruct slot_id as [k|]; simpl; [|exact Same].
    destruct (k =? 0); simpl; [exact Same|].
    destruct (get_slot db k) as [n|]; simpl; [|exact Same].
    now destruct (Slot.booked n).
  - unfold api_list_user_bookings, login_required.
    destruct (get_current_user _ _) as [u|]; simpl; [|exact Same].
    destruct (missed_candidate _ u now) as [c|]; [|exact Same].
    now rewrite (proj1 (find_and_book_users _ _ _ _ _ _)).
  - unfold api_mark_arrived, login_required.
    destruct (get_current_user _ _) as [u|]; simpl; [|exact Same].
    now destruct (own_booking _ _ _).
  - unfold api_find_next_slot, login_required.
    destruct (get_current_user _ _) as [u|]; simpl; [|exact Same].
    destruct (own_booking _ _ _) as [o|]; simpl; [|exact Same].
    pose proof (proj1 (find_and_book_users db now u (Slot.service_id o) o
                         false)) as E.
    destruct (_find_and_book_next_slot _ _ _ _ _ _) as [d [n|]];
      simpl in *; now rewrite E.
  - unfold api_admin_mark_arrived, admin_required.
    destruct (get_current_user _ _) as [u|]; simpl; [|exact Same].
    destruct (String.eqb _ _); simpl; [|exact Same].
    destruct (get_slot db slot_id) as [x|]; simpl; [|exact Same].
    now destruct (negb _).
Qed.

(** ** The auth helpers and the auth API *)

Lemma get_current_user_None db session :
  (session = None \/ session = Some 0
   \/ exists k, session = Some k /\ forall u, In u (users db) -> User.id u <> k)
  <-> get_current_user db session = None.
Proof.
  unfold get_current_user, get_user. split.
  - intros [->|[->|[k [-> Hk]]]]; try reflexivity.
    destruct (k =? 0); [reflexivity|].
    destruct (find _ (users db)) as [u|] eqn:F; [|reflexivity].
    apply find_some in F. destruct F as [Hu E]. apply Z.eqb_eq in E.
    now apply Hk in Hu.
  - destruct session as [k|]; [|now left].
    destruct (k =? 0) eqn:E.
    { intros _. right. left. apply Z.eqb_eq in E. now subst. }
    intros F. right. right. exists k. split; [reflexivity|].
    intros u Hu Ek. apply (find_none _ _ F) in Hu.
    apply Z.eqb_neq in Hu. contradiction.
Qed.

(** X10.  A request whose session holds no user id, the id [0] or the id of
    no user is answered 401 by every handler behind [login_required], and
    the database is unchanged. *)
Theorem unauthenticated_is_401
  (ilike : string -> string -> bool) (db : DB) (session : option Z)
  (slot_id : option Z) (k now now' : Z) (service_type : option string) :
  session = None \/ session = Some 0
  \/ (exists i, session = Some i
                /\ forall u, In u (users db) -> User.id u <> i) ->
  api_book_slot db session slot_id now
  = (db, (401, error "Authentication required"))
  /\ api_list_user_bookings db session now now'
     = (db, (401, error "Authentication required"))
  /\ api_mark_arrived db session k
     = (db, (401, error "Authentication required"))
  /\ api_find_next_slot db session k now
     = (db, (401, error "Authentication required"))
  /\ api_search_slots ilike db session service_type now
     = (401, read_error "Authentication required").
Proof.
  intros H. apply get_current_user_None in H.
  unfold api_book_slot, api_list_user_bookings, api_mark_arrived,
    api_find_next_slot, api_search_slots, login_required,
    login_required_read.
  rewrite H. now repeat split.
Qed.

(** X11.  A request of a caller who is not logged in or whose role is not
    [admin] is answered 403 by every handler behind [admin_required], and
    the database is unchanged. *)
Theorem non_admin_is_403
  (fromisoformat : string -> iso_result) (db : DB) (session : option Z)
  (data : ServiceData) (time_str : option string) (k k' now : Z) :
  (forall u, get_current_user db session = Some u ->
             User.role u <> "admin") ->
  api_admin_create_service db session data now
  = (db, (403, error "Admin access required"))
  /\ api_admin_delete_service db session k
     = (db, (403, error "Admin access required"))
  /\ api_admin_delete_all_services db session
     = (db, (403, error "Admin access required"))
  /\ api_admin_create_slot fromisoformat db session k time_str now
     = (db, (403, error "Admin access required"))
  /\ api_admin_delete_slot db session k k'
     = (db, (403, error "Admin access required"))
  /\ api_admin_mark_arrived db session k
     = (db, (403, error "Admin access required"))
  /\ api_admin_list_services db session
     = (403, read_error "Admin access required")
  /\ api_admin_list_slots db session k
     = (403, read_error "Admin access required")
  /\ api_admin_bookings db session
     = (403, read_error "Admin access required")
  /\ api_admin_dashboard_metrics db session now
     = (403, read_error "Admin access required").
Proof.
  intros H.
  unfold api_admin_create_service, api_admin_delete_service,
    api_admin_delete_all_services, api_admin_create_slot,
    api_admin_delete_slot, api_admin_mark_arrived, api_admin_list_services,
    api_admin_list_slots, api_admin_bookings, api_admin_dashboard_metrics,
    admin_required, admin_required_read.
  destruct (get_current_user db session) as [u|]; [|now repeat split].
  specialize (H u eq_refl). apply String.eqb_neq in H. rewrite H.
  now repeat split.
Qed.

Lemma find_app_None {A : Type} (p : A -> bool) l l' :
  find p l = None -> find p (l ++ l') = find p l'.
Proof.
  induction l as [|y l IH]; simpl; [trivial|].
  destruct (p y); [discriminate | exact IH].
Qed.

Lemma register_created generate_password_hash db session data now db'
  session' user :
  api_register generate_password_hash db session data now
  = (db', session', (200, user_json user)) ->
  db' = with_users db (users db ++ [user])
  /\ session' = Some (User.id user)
  /\ User.id user = next_id (map User.id (users db))
  /\ User.email user = Py.lower (Py.strip (Py.or_str (reg_email data) ""))
  /\ User.password_hash user
     = generate_password_hash (Py.or_str (reg_password data) "")
  /\ forall u, In u (users db) -> User.email u <> User.email user.
Proof.
  unfold api_register. destruct (negb _); [discriminate|].
  rewrite first_filter_find.
  destruct (find _ (users db)) as [u|] eqn:F; [discriminate|].
  intros E. injection E as <- <- <-. repeat split.
  intros u Hu. apply (find_none _ _ F) in Hu. simpl.
  now apply String.eqb_neq.
Qed.

(** X12.  Registration logs the new account in: after a registration
    answered 200, the session it returns resolves, in the database it
    returns, to the user it created. *)
Theorem register_then_session_resolves
  (generate_password_hash : string -> string) (db : DB)
  (session : option Z) (data : RegisterData) (now : Z) (db' : DB)
  (session' : option Z) (user : User.t) :
  api_register generate_password_hash db session data now
  = (db', session', (200, user_json user)) ->
  get_current_user db' session' = Some user.
Proof.
  intros H. apply register_created in H.
  destruct H as (-> & -> & Eid & _). unfold get_current_user, get_user.
  simpl. pose proof (next_id_pos (map User.id (users db))) as Hpos.
  destruct (User.id user =? 0) eqn:E0; [apply Z.eqb_eq in E0; lia|].
  rewrite find_app_None; [simpl; now rewrite Z.eqb_refl|].
  destruct (find _ (users db)) as [u|] eqn:F; [|reflexivity].
  apply find_some in F. destruct F as [Hu E]. apply Z.eqb_eq in E.
  exfalso. apply (next_id_fresh (map User.id (users db))).
  rewrite <- Eid, <- E. now apply in_map.
Qed.

(** X13.  Registration is refused with 400, the database and the session
    unchanged, when one of the five fields is absent or blank (the password
    is not stripped), and when a user already has the email, compared after
    stripping and lowering. *)
Theorem register_rejects
  (generate_password_hash : string -> string) (db : DB)
  (session : option Z) (data : RegisterData) (now : Z) :
  let name := Py.strip (Py.or_str (reg_name data) "") in
  let email := Py.lower (Py.strip (Py.or_str (reg_email data) "")) in
  let password := Py.or_str (reg_password data) "" in
  let phone := Py.strip (Py.or_str (reg_phone data) "") in
  let place := Py.strip (Py.or_str (reg_place data) "") in
  (name = "" \/ email = "" \/ password = "" \/ phone = "" \/ place = "" ->
   api_register generate_password_hash db session data now
   = (db, session, (400, error "All fields are required.")))
  /\ (name <> "" -> email <> "" -> password <> "" -> phone <> "" ->
      place <> "" ->
      (exists u, In u (users db) /\ User.email u = email) ->
      api_register generate_password_hash db session data now
      = (db, session, (400, error "Email already registered."))).
Proof.
  intros name email password phone place. unfold api_register.
  fold name email password phone place.
  assert (forall x, x <> "" -> Py.truthy_str x = true) as Ht.
  { intros x Hx. unfold Py.truthy_str. apply negb_true_iff.
    now apply String.eqb_neq. }
  split.
  - intros H.
    assert (Py.truthy_str name && Py.truthy_str email
            && Py.truthy_str password && Py.truthy_str phone
            && Py.truthy_str place = false) as ->; [|reflexivity].
    unfold Py.truthy_str.
    destruct H as [E | [E | [E | [E | E]]]]; rewrite E; simpl;
      rewrite ?andb_false_r; reflexivity.
  - intros Hn He Hp Hph Hpl [u [Hu Eu]].
    rewrite !Ht by assumption. simpl. rewrite first_filter_find.
    destruct (find _ (users db)) eqn:F; [reflexivity|].
    apply (find_none _ _ F) in Hu. apply String.eqb_neq in Hu.
    contradiction.
Qed.

(** X14.  After a registration answered 200, a login with the same
    password and an email that strips and lowers to the registered one is
    answered 200 with that user and puts the user's id in the session,
    provided [check_password_hash] accepts the hash that
    [generate_password_hash] made of the password. *)
Theorem login_after_register
  (generate_password_hash : string -> string)
  (check_password_hash : string -> string -> bool) (db : DB)
  (session : option Z) (data : RegisterData) (now : Z) (db' : DB)
  (session' : option Z) (user : User.t) (session2 : option Z)
  (email2 : option string) :
  (forall p, check_password_hash (generate_password_hash p) p = true) ->
  api_register generate_password_hash db session data now
  = (db', session', (200, user_json user)) ->
  Py.lower (Py.strip (Py.or_str email2 ""))
  = Py.lower (Py.strip (Py.or_str (reg_email data) "")) ->
  api_login check_password_hash db' session2 email2 (reg_password data)
  = (Some (User.id user), (200, user_json user)).
Proof.
  intros Hcheck H Eemail. apply register_created in H.
  destruct H as (-> & _ & _ & Em & Eh & Hnew).
  unfold api_login. rewrite Eemail, <- Em, first_filter_find. simpl.
  rewrite find_app_None.
  - simpl. rewrite String.eqb_refl, Eh, Hcheck. reflexivity.
  - destruct (find _ (users db)) as [u|] eqn:F; [|reflexivity].
    apply find_some in F. destruct F as [Hu E]. apply String.eqb_eq in E.
    now apply Hnew in Hu.
Qed.

(** X15.  A failed login says the same thing whatever failed: when no user
    has the email, and when the users that have it do not pass the password
    check, the answer is 400 with one message and the session is unchanged. *)
Theorem login_failure_uniform
  (check_password_hash : string -> string -> bool) (db : DB)
  (session : option Z) (email password : option string) :
  (forall u, In u (users db) ->
     User.email u = Py.lower (Py.strip (Py.or_str email "")) ->
     check_password_hash (User.password_hash u) (Py.or_str password "")
     = false) ->
  api_login check_password_hash db session email password
  = (session, (400, error "Invalid email or password")).
Proof.
  intros H. unfold api_login. rewrite first_filter_find.
  destruct (find _ (users db)) as [u|] eqn:F; [|reflexivity].
  apply find_some in F. destruct F as [Hu E]. apply String.eqb_eq in E.
  now rewrite (H u Hu E).
Qed.

(** ** Services and slots of an admin *)

Lemma owned_service_None_iff db user service_id :
  owned_service db user service_id = None
  <-> forall v, In v (services db) -> Service.id v = service_id ->
        Service.admin_id v <> User.id user.
Proof.
  split; [apply owned_service_None|].
  intros H. destruct (owned_service db user service_id) as [v|] eqn:O;
    [|reflexivity].
  apply owned_service_In in O. destruct O as (Hv & Ev & Av).
  now apply H in Hv.
Qed.

(** X16.  Creating a service, as an admin: a blank name, type or address
    (after stripping) is refused with 400 and nothing changes; otherwise one
    service is added, with a new id and the caller as owner, answered 201,
    and the ownership lookup of the other admin handlers finds it. *)
Theorem create_service_spec
  (db : DB) (session : option Z) (user : User.t) (data : ServiceData)
  (now : Z) :
  get_current_user db session = Some user ->
  User.role user = "admin" ->
  let name := Py.strip (Py.or_str (svc_name data) "") in
  let service_type := Py.strip (Py.or_str (svc_type data) "") in
  let address := Py.strip (Py.or_str (svc_address data) "") in
  (name = "" \/ service_type = "" \/ address = "" ->
   api_admin_create_service db session data now
   = (db, (400, error "name, type and address are required")))
  /\ (name <> "" -> service_type <> "" -> address <> "" ->
      exists service,
        api_admin_create_service db session data now
        = (with_services db (services db ++ [service]),
           (201, service_json service))
        /\ Service.admin_id service = User.id user
        /\ Service.name service = name
        /\ Service.type service = service_type
        /\ Service.address service = address
        /\ (forall v, In v (services db) ->
              Service.id v <> Service.id service)
        /\ owned_service (with_services db (services db ++ [service])) user
                         (Service.id service)
           = Some service).
Proof.
  intros Hu Hr name service_type address.
  unfold api_admin_create_service, admin_required. rewrite Hu, Hr. simpl.
  fold name service_type address. unfold Py.truthy_str. split.
  - intros H.
    assert (negb (String.eqb name "") && negb (String.eqb service_type "")
            && negb (String.eqb address "") = false) as ->; [|reflexivity].
    destruct H as [E | [E | E]]; rewrite E; simpl;
      rewrite ?andb_false_r; reflexivity.
  - intros Hn Ht Ha. apply String.eqb_neq in Hn, Ht, Ha.
    rewrite Hn, Ht, Ha. simpl. eexists. split; [reflexivity|]. simpl.
    repeat split.
    + intros v Hv E.
      apply (next_id_fresh (map Service.id (services db))).
      rewrite <- E. now apply in_map.
    + unfold owned_service. rewrite first_filter_find. simpl.
      rewrite find_app_None; [simpl; now rewrite !Z.eqb_refl|].
      destruct (find _ (services db)) as [v|] eqn:F; [|reflexivity].
      apply find_some in F. destruct F as [Hv E].
      apply andb_true_iff in E. destruct E as [E _]. apply Z.eqb_eq in E.
      exfalso. apply (next_id_fresh (map Service.id (services db))).
      rewrite <- E. now apply in_map.
Qed.

Lemma filter_filter {A : Type} (p q : A -> bool) l :
  filter q (filter p l) = filter (fun x => p x && q x) l.
Proof.
  induction l as [|x l IH]; simpl; [reflexivity|].
  destruct (p x); simpl; [|exact IH].
  destruct (q x); [now rewrite IH | exact IH].
Qed.

Lemma fold_delete_service_rows_eq l :
  forall db,
    fold_left delete_service_rows l db
    = mkDB (users db)
           (filter (fun v => negb (in_ids (Service.id v) (map Service.id l)))
                   (services db))
           (filter (fun s => negb (in_ids (Slot.service_id s)
                                          (map Service.id l)))
                   (slots db)).
Proof.
  induction l as [|w l IH]; intros db; simpl.
  - destruct db as [u v s]. simpl. f_equal.
    + induction v as [|x r IHr]; simpl; congruence.
    + induction s as [|x r IHr]; simpl; congruence.
  - rewrite IH. unfold delete_service_rows. simpl.
    rewrite !filter_filter. f_equal; apply filter_ext; intros x;
      unfold in_ids; now rewrite negb_orb.
Qed.

(** X17.  Deleting all one's services, as an admin: afterwards the services
    are those of the other owners, the slots are those of the services that
    remain, and the users are unchanged; the caller owns no service. *)
Theorem delete_all_services_spec
  (db : DB) (session : option Z) (user : User.t) :
  wf db = true ->
  get_current_user db session = Some user ->
  User.role user = "admin" ->
  let res := api_admin_delete_all_services db session in
  snd res = (200, ok)
  /\ users (fst res) = users db
  /\ services (fst res)
     = filter (fun v => negb (Service.admin_id v =? User.id user))
              (services db)
  /\ (forall s, In s (slots (fst res)) <->
        In s (slots db)
        /\ exists v, In v (services (fst res))
                     /\ Service.id v = Slot.service_id s)
  /\ forall k, owned_service (fst res) user k = None.
Proof.
  intros Hwf Hu Hr res. apply wf_WF in Hwf.
  unfold res, api_admin_delete_all_services, admin_required.
  rewrite Hu, Hr. cbn [String.eqb Ascii.eqb Bool.eqb].
  rewrite fold_delete_service_rows_eq. cbn [fst snd users services slots].
  set (owned := filter (fun v => Service.admin_id v =? User.id user)
                       (services db)).
  assert (forall v, In v (services db) ->
            in_ids (Service.id v) (map Service.id owned)
            = (Service.admin_id v =? User.id user)) as Hown.
  { intros v Hv. unfold in_ids.
    destruct (Service.admin_id v =? User.id user) eqn:A.
    - apply existsb_exists. exists (Service.id v).
      split; [|apply Z.eqb_refl]. apply in_map. apply filter_In. now split.
    - destruct (existsb _ _) eqn:E; [|reflexivity].
      apply existsb_exists in E. destruct E as [i [Hi E]].
      apply Z.eqb_eq in E. subst i. apply in_map_iff in Hi.
      destruct Hi as [w [Ew Hw]]. apply filter_In in Hw.
      destruct Hw as [Hw Aw].
      assert (w = v) as ->; [|congruence].
      pose proof (WF_service_ids db Hwf) as Hnd. clear - Hnd Hw Hv Ew.
      induction (services db) as [|x l IH]; simpl in *; [tauto|].
      inversion Hnd as [|? ? Hx Hl]; subst.
      destruct Hw as [->|Hw], Hv as [->|Hv]; auto.
      + exfalso. apply Hx. rewrite Ew. now apply in_map.
      + exfalso. apply Hx. rewrite <- Ew. now apply in_map. }
  assert (filter (fun v => negb (in_ids (Service.id v)
                                        (map Service.id owned)))
                 (services db)
          = filter (fun v => negb (Service.admin_id v =? User.id user))
                   (services db)) as Es.
  { apply filter_ext_in. intros v Hv. now rewrite (Hown v Hv). }
  rewrite Es. split; [reflexivity|]. split; [reflexivity|].
  split; [reflexivity|]. split.
  - intros s. split.
    + intros Hs. apply filter_In in Hs. destruct Hs as [Hs Hn].
      split; [exact Hs|].
      pose proof (WF_service db Hwf s Hs) as E. unfold has_service in E.
      apply existsb_exists in E. destruct E as [v [Hv E]].
      apply Z.eqb_eq in E. exists v. split; [|exact E].
      apply filter_In. split; [exact Hv|].
      rewrite <- (Hown v Hv), E. exact Hn.
    + intros [Hs [v [Hv E]]]. apply filter_In in Hv.
      destruct Hv as [Hv A]. apply filter_In. split; [exact Hs|].
      rewrite <- E, (Hown v Hv). exact A.
  - intros k. apply owned_service_None_iff. cbn [services].
    intros v Hv _. apply filter_In in Hv. destruct Hv as [_ A].
    now apply negb_true_iff, Z.eqb_neq in A.
Qed.



(** X20.  Creating a slot on a service one owns: an absent or empty time is
    refused with 400 and nothing changes; a naive timestamp after [now] adds
    one slot with a new id, which the lookup by id then finds, every other
    row staying as it was, and which a logged-in user can book at once. *)
Theorem create_slot_then_lookup
  (fromisoformat : string -> iso_result) (db : DB) (session : option Z)
  (user : User.t) (service : Service.t) (service_id : Z) (now : Z) :
  wf db = true ->
  get_current_user db session = Some user ->
  User.role user = "admin" ->
  owned_service db user service_id = Some service ->
  api_admin_create_slot fromisoformat db session service_id None now
  = (db, (400, error "time is required (ISO 8601)"))
  /\ api_admin_create_slot fromisoformat db session service_id (Some "") now
     = (db, (400, error "time is required (ISO 8601)"))
  /\ forall time_str t db' slot,
       api_admin_create_slot fromisoformat db session service_id
                             (Some time_str) now
       = (db', (201, slot_json slot)) ->
       fromisoformat time_str = Naive t ->
       now < t
       /\ Slot.time slot = t
       /\ Slot.service_id slot = service_id
       /\ get_slot db (Slot.id slot) = None
       /\ get_slot db' (Slot.id slot) = Some slot
       /\ (forall k, k <> Slot.id slot -> get_slot db' k = get_slot db k)
       /\ wf db' = true
       /\ forall session2 user2 now2,
            get_current_user db' session2 = Some user2 ->
            fst (snd (api_book_slot db' session2 (Some (Slot.id slot))
                        now2)) = 200.
Proof.
  intros Hwf Hu Hr O. apply wf_WF in Hwf.
  destruct (owned_service_In _ _ _ _ O) as (Hv & Ev & _).
  unfold api_admin_create_slot, admin_required. rewrite Hu, Hr, O.
  cbn [String.eqb Ascii.eqb Bool.eqb].
  split; [reflexivity|]. split; [reflexivity|].
  intros time_str t db' slot H Hp. rewrite Hp in H.
  destruct (negb (Py.truthy_str time_str)); [discriminate|].
  destruct (t <=? now) eqn:Ht; [discriminate|]. apply Z.leb_gt in Ht.
  injection H as <- <-. rewrite Ev.
  assert (get_slot db (next_id (map Slot.id (slots db))) = None) as Gnone.
  { unfold get_slot. destruct (find _ (slots db)) as [x|] eqn:F;
      [|reflexivity].
    apply find_some in F. destruct F as [Hx E]. apply Z.eqb_eq in E.
    exfalso. apply (next_id_fresh (map Slot.id (slots db))).
    rewrite <- E. now apply in_map. }
  pose proof (WF_add_slot db service t Hwf Hv) as Hwf'. rewrite Ev in Hwf'.
  cbn [Slot.time Slot.service_id Slot.id].
  split; [exact Ht|]. split; [reflexivity|]. split; [reflexivity|].
  split; [exact Gnone|].
  assert (get_slot
            (with_slots db
               (slots db ++
                [Slot.mk (next_id (map Slot.id (slots db))) service_id t
                         false None None None "available" false false]))
            (next_id (map Slot.id (slots db)))
          = Some (Slot.mk (next_id (map Slot.id (slots db))) service_id t
                          false None None None "available" false false))
    as Gnew.
  { unfold get_slot in *. cbn [slots with_slots].
    rewrite (find_app_None _ _ _ Gnone). simpl. now rewrite Z.eqb_refl. }
  split; [exact Gnew|]. split.
  { intros k Hk. unfold get_slot. cbn [slots with_slots].
    destruct (find (fun s => Slot.id s =? k) (slots db)) as [x|] eqn:F.
    - now apply find_app_Some.
    - rewrite (find_app_None _ _ _ F). simpl.
      apply Z.eqb_neq in Hk. rewrite Z.eqb_sym in Hk. now rewrite Hk. }
  split; [now apply wf_WF|].
  intros session2 user2 now2 Hu2.
  unfold api_book_slot, login_required. rewrite Hu2.
  pose proof (next_id_pos (map Slot.id (slots db))) as Hpos.
  destruct (next_id (map Slot.id (slots db)) =? 0) eqn:Z0;
    [apply Z.eqb_eq in Z0; lia|].
  now rewrite Gnew.
Qed.

(** ** Bookings, arrivals and listings *)








(** X25.  One listing books at most one slot: a slot that is unbooked before
    the listing and booked after it is booked for the caller as an automatic
    reschedule ([auto_rescheduled] true, booked at the second clock read),
    and two such slots are the same slot. *)
Theorem list_user_bookings_books_at_most_one
  (db : DB) (session : option Z) (user : User.t) (now now' : Z) :
  get_current_user db session = Some user ->
  let db' := fst (api_list_user_bookings db session now now') in
  (forall k s s', get_slot db k = Some s -> Slot.booked s = false ->
     get_slot db' k = Some s' -> Slot.booked s' = true ->
     Slot.booked_by_id s' = Some (User.id user)
     /\ Slot.auto_rescheduled s' = true
     /\ Slot.booked_at s' = Some now'
     /\ Slot.status s' = "booked")
  /\ forall k1 k2 s1 s2 s1' s2',
       get_slot db k1 = Some s1 -> Slot.booked s1 = false ->
       get_slot db' k1 = Some s1' -> Slot.booked s1' = true ->
       get_slot db k2 = Some s2 -> Slot.booked s2 = false ->
       get_slot db' k2 = Some s2' -> Slot.booked s2' = true ->
       k1 = k2.
Proof.
  intros Hu db'.
  set (db1 := mark_second_misses db user now).
  assert (forall k s s', get_slot db k = Some s -> Slot.booked s = false ->
            get_slot db' k = Some s' -> Slot.booked s' = true ->
            exists c n s1,
              missed_candidate db1 user now = Some c
              /\ next_slot_query db1 (Slot.service_id c) now' = Some n
              /\ k = Slot.id n
              /\ s' = book_for user now' true s1) as Key.
  { intros k s s' G B G' B'.
    assert (exists s1, get_slot db1 k = Some s1 /\ Slot.booked s1 = false
                       /\ Slot.id s1 = k) as [s1 (G1 & B1 & E1)].
    { unfold db1, get_slot. rewrite mark_second_misses_slots.
      rewrite find_map_id by (intros r; now destruct (existsb _ _)).
      unfold get_slot in G. rewrite G. simpl.
      apply (get_slot_Some db) in G. destruct G as [_ Ek].
      eexists. split; [reflexivity|].
      now destruct (existsb _ _). }
    unfold db', api_list_user_bookings, login_required in G'.
    rewrite Hu in G'. cbn [fst] in G'. fold db1 in G'.
    destruct (missed_candidate db1 user now) as [c|] eqn:C;
      [|rewrite G1 in G'; congruence].
    rewrite find_and_book_get, G1 in G'. simpl in G'.
    injection G' as <-.
    destruct (next_slot_query db1 (Slot.service_id c) now') as [n|] eqn:Q.
    - destruct (Slot.id s1 =? Slot.id n) eqn:E.
      + apply Z.eqb_eq in E. exists c, n.
        exists (if Slot.id s1 =? Slot.id c
                then Slot.set_status "no-show" s1 else s1).
        split; [first [exact C | reflexivity]|].
        split; [first [exact Q | reflexivity]|].
        split; [congruence | reflexivity].
      + exfalso. destruct (Slot.id s1 =? Slot.id c); simpl in B';
          congruence.
    - exfalso. destruct (Slot.id s1 =? Slot.id c); simpl in B'; congruence. }
  split.
  - intros k s s' G B G' B'.
    destruct (Key k s s' G B G' B') as (c & n & s1 & _ & _ & _ & ->).
    now repeat split.
  - intros k1 k2 s1 s2 s1' s2' G1 B1 G1' B1' G2 B2 G2' B2'.
    destruct (Key k1 s1 s1' G1 B1 G1' B1') as (c & n & x & C & Q & -> & _).
    destruct (Key k2 s2 s2' G2 B2 G2' B2') as (c' & n' & x' & C' & Q' & -> & _).
    congruence.
Qed.


(** ** Search, admin bookings and the dashboard *)

Lemma in_ids_services (p : Service.t -> bool) (l : list Service.t) x :
  in_ids x (map Service.id (filter p l)) = true
  <-> exists v, In v l /\ Service.id v = x /\ p v = true.
Proof.
  unfold in_ids. rewrite existsb_exists. split.
  - intros [i [Hi E]]. apply Z.eqb_eq in E. subst i.
    apply in_map_iff in Hi. destruct Hi as [v [Ev Hv]].
    apply filter_In in Hv. exists v. tauto.
  - intros [v (Hv & Ev & Pv)]. exists (Service.id v).
    split; [|subst x; apply Z.eqb_refl].
    apply in_map. apply filter_In. now split.
Qed.

Lemma order_by_time_asc_sorted l :
  StronglySorted (fun a b => Slot.time a <= Slot.time b)
                 (order_by time_asc l).
Proof.
  apply (StronglySorted_weaken (fun a b => time_asc a b = true)).
  - intros a b H. now apply Z.leb_le.
  - apply order_by_sorted; [apply time_asc_total | apply time_asc_trans].
Qed.

(** The slots a search returns. *)
Lemma search_results (ilike : string -> string -> bool) db session user
  service_type now :
  get_current_user db session = Some user ->
  let pattern :=
    String.append "%"
      (String.append (Py.lower (Py.strip (Py.or_str service_type ""))) "%") in
  Py.lower (Py.strip (Py.or_str service_type "")) <> "" ->
  exists l,
    api_search_slots ilike db session service_type now
    = (200, slots_with_service_json (map (to_dict_with_service db) l))
    /\ StronglySorted (fun a b => Slot.time a <= Slot.time b) l
    /\ forall s, In s l <->
         In s (slots db) /\ Slot.booked s = false /\ now < Slot.time s
         /\ exists v, In v (services db)
                      /\ Service.id v = Slot.service_id s
                      /\ ilike (Service.type v) pattern = true.
Proof.
  intros Hu pattern Hne.
  unfold api_search_slots, login_required_read. rewrite Hu.
  unfold Py.truthy_str. apply String.eqb_neq in Hne. rewrite Hne.
  cbn [negb]. fold pattern.
  destruct (filter (fun v => ilike (Service.type v) pattern) (services db))
    as [|v0 r] eqn:M.
  - exists []. split; [reflexivity|]. split; [constructor|].
    intros s. split; [intros []|].
    intros (_ & _ & _ & v & Hv & _ & Pv).
    assert (In v (filter (fun v => ilike (Service.type v) pattern)
                         (services db))) as H
      by (apply filter_In; now split).
    rewrite M in H. destruct H.
  - rewrite <- M. eexists. split; [reflexivity|].
    split; [apply order_by_time_asc_sorted|].
    intros s. rewrite order_by_In, filter_In.
    rewrite !andb_true_iff, negb_true_iff, Z.ltb_lt, in_ids_services.
    tauto.
Qed.

(** X27.  Searching, as a logged-in user: a blank service type is refused
    with 400; otherwise the answer lists, by ascending time and each with its
    service, exactly the slots that are unbooked, later than [now] and of a
    service whose type matches the pattern made of the stripped, lowered
    query between two [%]. *)
Theorem search_slots_spec
  (ilike : string -> string -> bool) (db : DB) (session : option Z)
  (user : User.t) (service_type : option string) (now : Z) :
  get_current_user db session = Some user ->
  let query := Py.lower (Py.strip (Py.or_str service_type "")) in
  let pattern := String.append "%" (String.append query "%") in
  (query = "" ->
   api_search_slots ilike db session service_type now
   = (400, read_error "service_type is required"))
  /\ (query <> "" ->
      exists l,
        api_search_slots ilike db session service_type now
        = (200, slots_with_service_json (map (to_dict_with_service db) l))
        /\ StronglySorted (fun a b => Slot.time a <= Slot.time b) l
        /\ forall s, In s l <->
             In s (slots db) /\ Slot.booked s = false /\ now < Slot.time s
             /\ exists v, In v (services db)
                          /\ Service.id v = Slot.service_id s
                          /\ ilike (Service.type v) pattern = true).
Proof.
  intros Hu query pattern. split.
  - intros E. unfold api_search_slots, login_required_read. rewrite Hu.
    fold query. now rewrite E.
  - intros Hne. now apply (search_results ilike db session user).
Qed.


(** X29.  The bookings of an admin: the answer lists, by ascending time and
    each with its service, exactly the booked slots of the services the
    caller owns. *)
Theorem admin_bookings_spec
  (db : DB) (session : option Z) (user : User.t) :
  get_current_user db session = Some user ->
  User.role user = "admin" ->
  exists l,
    api_admin_bookings db session
    = (200, slots_with_service_json (map (to_dict_with_service db) l))
    /\ StronglySorted (fun a b => Slot.time a <= Slot.time b) l
    /\ forall s, In s l <->
         In s (slots db) /\ Slot.booked s = true
         /\ exists v, In v (services db)
                      /\ Service.id v = Slot.service_id s
                      /\ Service.admin_id v = User.id user.
Proof.
  intros Hu Hr. unfold api_admin_bookings, admin_required_read.
  rewrite Hu, Hr. cbn [String.eqb Ascii.eqb Bool.eqb].
  destruct (filter (fun v => Service.admin_id v =? User.id user)
                   (services db)) as [|v0 r] eqn:O.
  - exists []. split; [reflexivity|]. split; [constructor|].
    intros s. split; [intros []|].
    intros (_ & _ & v & Hv & _ & Av).
    assert (In v (filter (fun v => Service.admin_id v =? User.id user)
                         (services db))) as H
      by (apply filter_In; split; [exact Hv | now apply Z.eqb_eq]).
    rewrite O in H. destruct H.
  - rewrite <- O. eexists. split; [reflexivity|].
    split; [apply order_by_time_asc_sorted|].
    intros s. unfold join_Service.
    rewrite order_by_In, !filter_In, andb_true_iff, in_ids_services. split.
    + intros [[Hs _] [[v (Hv & Ev & Av)] B]]. apply Z.eqb_eq in Av.
      split; [exact Hs|]. split; [exact B|]. now exists v.
    + intros (Hs & B & v & Hv & Ev & Av). split; [split; [exact Hs|]|].
      * apply existsb_exists. exists v. split; [exact Hv|].
        now apply Z.eqb_eq.
      * split; [|exact B]. exists v. apply Z.eqb_eq in Av. tauto.
Qed.

Lemma fold_count_slot t l :
  forall m,
    fold_left (count_slot t) l m
    = mkMetrics
        (available_slots m
         + List.length (filter (fun s => negb (Slot.booked s)) l))
        (booked_today m
         + List.length
             (filter (fun s => Slot.booked s
                               && match Slot.booked_at s with
                                  | Some booked_at => t <=? booked_at
                                  | None => false
                                  end) l))
        (pending_actions m
         + List.length
             (filter (fun s => Slot.booked s
                               && (String.eqb (Slot.status s) "booked"
                                   && (Slot.time s <? t)
                                   && negb (Slot.arrived s))) l)).
Proof.
  induction l as [|x l IH]; intros m; simpl.
  - destruct m. simpl. f_equal; lia.
  - rewrite IH. unfold count_slot.
    destruct (Slot.booked x); simpl.
    + destruct (Slot.booked_at x) as [b|]; simpl;
        [destruct (t <=? b)|];
        destruct (String.eqb (Slot.status x) "booked"
                  && (Slot.time x <? t) && negb (Slot.arrived x));
        simpl; f_equal; lia.
    + f_equal; lia.
Qed.

Lemma skip_empty_loop t ids (l : list Slot.t) :
  match ids with
  | [] => mkMetrics 0 0 0
  | _ => fold_left (count_slot t)
                   (filter (fun s => in_ids (Slot.service_id s) ids) l)
                   (mkMetrics 0 0 0)
  end
  = fold_left (count_slot t)
              (filter (fun s => in_ids (Slot.service_id s) ids) l)
              (mkMetrics 0 0 0).
Proof.
  destruct ids; [|reflexivity].
  induction l as [|x l IH]; simpl; [reflexivity | exact IH].
Qed.

(** X30.  The dashboard of an admin counts, over the slots of the services
    the caller owns: the unbooked ones; the booked ones whose booking time is
    at or after the last midnight; and the booked ones with status [booked],
    scheduled before that midnight and not arrived.  The unbooked and the
    booked ones add up to all of them, and the midnight is at most one day
    before [now]. *)
Theorem dashboard_metrics_spec
  (db : DB) (session : option Z) (user : User.t) (now : Z) :
  get_current_user db session = Some user ->
  User.role user = "admin" ->
  let owned :=
    filter (fun v => Service.admin_id v =? User.id user) (services db) in
  let mine :=
    filter (fun s => in_ids (Slot.service_id s) (map Service.id owned))
           (slots db) in
  let midnight := today_start now in
  exists available today pending,
    api_admin_dashboard_metrics db session now
    = (200, metrics_json (List.length owned) available today pending)
    /\ available = List.length (filter (fun s => negb (Slot.booked s)) mine)
    /\ today
       = List.length
           (filter (fun s => Slot.booked s
                             && match Slot.booked_at s with
                                | Some booked_at => midnight <=? booked_at
                                | None => false
                                end) mine)
    /\ pending
       = List.length
           (filter (fun s => Slot.booked s
                             && (String.eqb (Slot.status s) "booked"
                                 && (Slot.time s <? midnight)
                                 && negb (Slot.arrived s))) mine)
    /\ (available + List.length (filter Slot.booked mine)
        = List.length mine)%nat
    /\ (today <= List.length (filter Slot.booked mine))%nat
    /\ (pending <= List.length (filter Slot.booked mine))%nat
    /\ midnight <= now < midnight + day
    /\ midnight mod day = 0.
Proof.
  intros Hu Hr owned mine midnight.
  assert (forall (p q : Slot.t -> bool) l,
            (List.length (filter (fun s => p s && q s) l)
             <= List.length (filter p l))%nat) as Hle.
  { intros p q l. induction l as [|x l IH]; simpl; [lia|].
    destruct (p x); simpl; [destruct (q x); simpl; lia | exact IH]. }
  assert (forall l : list Slot.t,
            (List.length (filter (fun s => negb (Slot.booked s)) l)
             + List.length (filter Slot.booked l) = List.length l)%nat)
    as Hsum.
  { induction l as [|x l IH]; simpl; [reflexivity|].
    destruct (Slot.booked x); simpl; lia. }
  eexists _, _, _. split.
  - unfold api_admin_dashboard_metrics, admin_required_read.
    rewrite Hu, Hr. cbn [String.eqb Ascii.eqb Bool.eqb]. cbv zeta.
    rewrite skip_empty_loop, fold_count_slot.
    cbn [available_slots booked_today pending_actions Nat.add].
    reflexivity.
  - split; [reflexivity|]. split; [reflexivity|]. split; [reflexivity|].
    split; [apply Hsum|]. split; [apply Hle|]. split; [apply Hle|].
    unfold midnight, today_start, day.
    pose proof (Z.mod_pos_bound now (24 * 60 * 60 * 1000000)) as Hb.
    split; [lia|].
    rewrite Zminus_mod, Zmod_mod, Z.sub_diag. reflexivity.
Qed.

(** ** The theorems on the sample database *)

Lemma wf_booked_iff_booked_by db : wf db = true -> booked_iff_booked_by db.
Proof.
  intros H s Hs. apply wf_WF in H. apply booked_consistent_iff.
  now apply (WF_booked db H).
Qed.

(** When the old slot is itself the earliest free slot of the service (no
    caller passes such a slot), the write of [booked] lands on the same row
    after the write of [no-show]. *)
Remark find_and_book_old_slot_free :
  option_map Slot.status
    (get_slot (fst (_find_and_book_next_slot ex_db ex_now ex_alice 1 ex_slot4
                      false)) 4)
  = Some "booked".
Proof. reflexivity. Qed.

(** After the booking: slot 1 is booked by the user, the others are free. *)
Example scenario_booked :
  map ex_view
      (slots (run ex_fromisoformat ex_generate_password_hash empty_db
                  ex_scenario))
  = [ (1, true, Some 2, "booked", false);
      (2, false, None, "available", false);
      (3, false, None, "available", false) ].
Proof. reflexivity. Qed.

(** The first listing marks slot 1 [no-show] and books slot 2, the earliest
    free one, as an automatic reschedule. *)
Example scenario_first_listing :
  map ex_view
      (slots (run ex_fromisoformat ex_generate_password_hash empty_db
                  (ex_scenario ++ ex_first_listing)))
  = [ (1, true, Some 2, "no-show", false);
      (2, true, Some 2, "booked", true);
      (3, false, None, "available", false) ].
Proof. reflexivity. Qed.

(** The second listing marks slot 2 [no-show] and books nothing, although
    slot 3 is free and in the future. *)
Example scenario_second_listing :
  map ex_view
      (slots (run ex_fromisoformat ex_generate_password_hash empty_db
                  (ex_scenario ++ ex_first_listing ++ ex_second_listing)))
  = [ (1, true, Some 2, "no-show", false);
      (2, true, Some 2, "no-show", true);
      (3, false, None, "available", false) ].
Proof. reflexivity. Qed.

(** The databases of a session are reachable. *)
Lemma run_reachable fromisoformat generate_password_hash l :
  forall db, reachable fromisoformat generate_password_hash db ->
    reachable fromisoformat generate_password_hash
              (run fromisoformat generate_password_hash db l).
Proof.
  induction l as [|r l IH]; intros db H; simpl; [exact H|].
  apply IH. now constructor.
Qed.

Lemma find_and_book_next_slot_spec_witness :
  NoDup (map Slot.id (slots ex_db))
  /\ In ex_slot1 (slots ex_db)
  /\ Slot.booked ex_slot1 = true
  /\ get_slot (fst (_find_and_book_next_slot ex_db ex_now ex_alice 1 ex_slot1
                      true)) (Slot.id ex_slot1)
     = Some (Slot.set_status "no-show" ex_slot1).
Proof.
  assert (NoDup (map Slot.id (slots ex_db))) as H1
    by (apply nodupb_NoDup; reflexivity).
  assert (In ex_slot1 (slots ex_db)) as H2 by (simpl; tauto).
  split; [exact H1|]. split; [exact H2|]. split; [reflexivity|].
  exact (proj1 (find_and_book_next_slot_spec ex_db ex_now ex_alice 1 ex_slot1
                  true H1 H2 eq_refl)).
Defined.

Lemma second_miss_becomes_no_show_witness :
  wf ex_db = true
  /\ get_current_user ex_db (Some 1) = Some ex_alice
  /\ In ex_slot2 (slots ex_db)
  /\ missed ex_alice ex_now ex_slot2
  /\ Slot.auto_rescheduled ex_slot2 = true
  /\ get_slot (fst (api_list_user_bookings ex_db (Some 1) ex_now ex_now))
              (Slot.id ex_slot2)
     = Some (Slot.set_status "no-show" ex_slot2).
Proof.
  assert (In ex_slot2 (slots ex_db)) as H1 by (simpl; tauto).
  assert (missed ex_alice ex_now ex_slot2) as H2
    by (repeat split; reflexivity).
  split; [reflexivity|]. split; [reflexivity|]. split; [exact H1|].
  split; [exact H2|]. split; [reflexivity|].
  exact (proj1 (second_miss_becomes_no_show ex_db (Some 1) ex_alice ex_now
                  ex_now ex_slot2 eq_refl eq_refl H1 H2 eq_refl)).
Defined.


Lemma booked_iff_booked_by_preserved_witness :
  booked_iff_booked_by ex_db
  /\ booked_iff_booked_by
       (handle ex_fromisoformat ex_generate_password_hash ex_db (Some 1)
               (BookSlot (Some 5) ex_now)).
Proof.
  assert (booked_iff_booked_by ex_db) as H
    by (apply wf_booked_iff_booked_by; reflexivity).
  split; [exact H|].
  exact (proj1 (booked_iff_booked_by_preserved ex_fromisoformat
                  ex_generate_password_hash ex_db (Some 1)
                  (BookSlot (Some 5) ex_now) H)).
Defined.


Lemma create_slot_aware_timestamp_witness :
  get_current_user ex_db (Some 2) = Some ex_bob
  /\ User.role ex_bob = "admin"
  /\ owned_service ex_db ex_bob 1 = Some ex_dentist
  /\ "2030-01-01T00:00:00+00:00" <> ""
  /\ ex_fromisoformat "2030-01-01T00:00:00+00:00" = Aware 1893456000000000
  /\ api_admin_create_slot ex_fromisoformat ex_db (Some 2) 1
                           (Some "2030-01-01T00:00:00+00:00") ex_now
     = (ex_db, (500, uncaught "TypeError")).
Proof.
  assert ("2030-01-01T00:00:00+00:00" <> "") as H by discriminate.
  split; [reflexivity|]. split; [reflexivity|]. split; [reflexivity|].
  split; [exact H|]. split; [reflexivity|].
  exact (create_slot_aware_timestamp ex_fromisoformat ex_db (Some 2) ex_bob
           ex_dentist 1 "2030-01-01T00:00:00+00:00" 1893456000000000 ex_now
           eq_refl eq_refl eq_refl H eq_refl).
Defined.


Lemma book_slot_ignores_time_witness :
  wf ex_db = true
  /\ get_current_user ex_db (Some 1) = Some ex_alice
  /\ In ex_slot5 (slots ex_db)
  /\ Slot.booked ex_slot5 = false
  /\ Slot.time ex_slot5 < ex_now
  /\ fst (snd (api_book_slot ex_db (Some 1) (Some (Slot.id ex_slot5))
                 ex_now)) = 200.
Proof.
  assert (In ex_slot5 (slots ex_db)) as H by (simpl; tauto).
  split; [reflexivity|]. split; [reflexivity|]. split; [exact H|].
  split; [reflexivity|]. split; [reflexivity|].
  exact (proj1 (book_slot_ignores_time ex_db (Some 1) ex_alice ex_slot5
                  ex_now eq_refl eq_refl H eq_refl)).
Defined.


Lemma register_role_from_request_witness :
  exists user,
    api_register ex_generate_password_hash ex_db None ex_register ex_now
    = (with_users ex_db (users ex_db ++ [user]), Some (User.id user),
       (200, user_json user))
    /\ User.email user = "eve@example.org"
    /\ (reg_role ex_register = Some "admin" -> User.role user = "admin")
    /\ (reg_role ex_register <> Some "admin" -> User.role user = "user").
Proof.
  assert (forall a b : string, String.eqb a b = false -> a <> b) as N
    by (intros a b E; now apply String.eqb_neq).
  assert (forall u, In u (users ex_db) ->
                    User.email u <> "eve@example.org") as H.
  { intros u [<-|[<-|[]]]; apply N; reflexivity. }
  assert (Py.strip (Py.or_str (reg_name ex_register) "") <> "") as H1
    by (apply N; reflexivity).
  assert (Py.lower (Py.strip (Py.or_str (reg_email ex_register) "")) <> "")
    as H2 by (apply N; reflexivity).
  assert (Py.or_str (reg_password ex_register) "" <> "") as H3
    by (apply N; reflexivity).
  assert (Py.strip (Py.or_str (reg_phone ex_register) "") <> "") as H4
    by (apply N; reflexivity).
  assert (Py.strip (Py.or_str (reg_place ex_register) "") <> "") as H5
    by (apply N; reflexivity).
  exact (register_role_from_request ex_generate_password_hash ex_db None
           ex_register ex_now H1 H2 H3 H4 H5 H).
Defined.

(** ** The further theorems on the sample database *)

Lemma ex_reached_reachable :
  reachable ex_fromisoformat ex_generate_password_hash ex_reached.
Proof. apply run_reachable. constructor. Qed.

Lemma reachable_status_domain_witness :
  reachable ex_fromisoformat ex_generate_password_hash ex_reached
  /\ forall s, In s (slots ex_reached) ->
       Slot.status s = "available" \/ Slot.status s = "booked"
       \/ Slot.status s = "arrived" \/ Slot.status s = "no-show".
Proof.
  split; [exact ex_reached_reachable|]. intros s Hs.
  exact (reachable_status_domain ex_fromisoformat ex_generate_password_hash
           ex_reached s ex_reached_reachable Hs).
Defined.

Lemma reachable_unbooked_iff_available_witness :
  reachable ex_fromisoformat ex_generate_password_hash ex_reached
  /\ forall s, In s (slots ex_reached) ->
       (Slot.booked s = false <-> Slot.status s = "available").
Proof.
  split; [exact ex_reached_reachable|]. intros s Hs.
  exact (proj1 (reachable_unbooked_iff_available ex_fromisoformat
                  ex_generate_password_hash ex_reached s
                  ex_reached_reachable Hs)).
Defined.

Lemma reachable_arrived_consistent_witness :
  reachable ex_fromisoformat ex_generate_password_hash ex_reached
  /\ forall s, In s (slots ex_reached) ->
       Slot.arrived s = true -> Slot.booked s = true.
Proof.
  split; [exact ex_reached_reachable|]. intros s Hs.
  exact (proj2 (reachable_arrived_consistent ex_fromisoformat
                  ex_generate_password_hash ex_reached s
                  ex_reached_reachable Hs)).
Defined.

Lemma reachable_booker_exists_witness :
  reachable ex_fromisoformat ex_generate_password_hash ex_reached
  /\ forall s uid, In s (slots ex_reached) ->
       Slot.booked_by_id s = Some uid ->
       exists u, get_user ex_reached uid = Some u
                 /\ Slot.booked_by_name s = Some (User.name u).
Proof.
  split; [exact ex_reached_reachable|]. intros s uid Hs E.
  exact (reachable_booker_exists ex_fromisoformat ex_generate_password_hash
           ex_reached s uid ex_reached_reachable Hs E).
Defined.

Lemma reachable_users_witness :
  reachable ex_fromisoformat ex_generate_password_hash ex_reached
  /\ NoDup (map User.email (users ex_reached)).
Proof.
  split; [exact ex_reached_reachable|].
  exact (proj1 (proj2 (reachable_users ex_fromisoformat
                         ex_generate_password_hash ex_reached
                         ex_reached_reachable))).
Defined.

Lemma reachable_service_owner_admin_witness :
  reachable ex_fromisoformat ex_generate_password_hash ex_reached
  /\ forall v, In v (services ex_reached) ->
       exists u, In u (users ex_reached) /\ User.id u = Service.admin_id v
                 /\ User.role u = "admin".
Proof.
  split; [exact ex_reached_reachable|]. intros v Hv.
  exact (reachable_service_owner_admin ex_fromisoformat
           ex_generate_password_hash ex_reached v ex_reached_reachable Hv).
Defined.

Lemma reachable_slots_reference_services_witness :
  reachable ex_fromisoformat ex_generate_password_hash ex_reached
  /\ NoDup (map Slot.id (slots ex_reached)).
Proof.
  split; [exact ex_reached_reachable|].
  exact (proj1 (reachable_slots_reference_services ex_fromisoformat
                  ex_generate_password_hash ex_reached
                  ex_reached_reachable)).
Defined.

Lemma request_keeps_bookings_witness :
  reachable ex_fromisoformat ex_generate_password_hash ex_reached
  /\ keeps_bookings ex_reached
       (handle ex_fromisoformat ex_generate_password_hash ex_reached
               (Some 2) (FindNextSlot 2 ex_T)).
Proof.
  split; [exact ex_reached_reachable|].
  exact (request_keeps_bookings ex_fromisoformat ex_generate_password_hash
           ex_reached (Some 2) (FindNextSlot 2 ex_T) ex_reached_reachable).
Defined.

Lemma unauthenticated_is_401_witness :
  api_book_slot ex_db (Some 9) (Some 3) ex_now
  = (ex_db, (401, error "Authentication required")).
Proof.
  assert (forall u, In u (users ex_db) -> User.id u <> 9) as H
    by (intros u [<-|[<-|[]]]; discriminate).
  exact (proj1 (unauthenticated_is_401 ex_ilike ex_db (Some 9) (Some 3) 1
                  ex_now ex_now None
                  (or_intror (or_intror (ex_intro _ 9 (conj eq_refl H)))))).
Defined.

Lemma non_admin_is_403_witness :
  get_current_user ex_db (Some 1) = Some ex_alice
  /\ User.role ex_alice <> "admin"
  /\ api_admin_delete_service ex_db (Some 1) 1
     = (ex_db, (403, error "Admin access required")).
Proof.
  assert (forall u, get_current_user ex_db (Some 1) = Some u ->
                    User.role u <> "admin") as H.
  { intros u E. assert (ex_alice = u) as <- by (injection E; trivial).
    discriminate. }
  split; [reflexivity|]. split; [discriminate|].
  exact (proj1 (proj2 (non_admin_is_403 ex_fromisoformat ex_db (Some 1)
                         ex_service_data None 1 1 ex_now H))).
Defined.

Lemma register_then_session_resolves_witness :
  api_register ex_generate_password_hash ex_db None ex_register ex_now
  = (ex_db_eve, Some 3, (200, user_json ex_eve))
  /\ get_current_user ex_db_eve (Some 3) = Some ex_eve.
Proof.
  assert (api_register ex_generate_password_hash ex_db None ex_register
                       ex_now
          = (ex_db_eve, Some 3, (200, user_json ex_eve))) as H
    by reflexivity.
  split; [exact H|].
  exact (register_then_session_resolves ex_generate_password_hash ex_db None
           ex_register ex_now ex_db_eve (Some 3) ex_eve H).
Defined.

Lemma register_rejects_witness :
  api_register ex_generate_password_hash ex_db None
    (mkRegisterData (Some "Mallory") (Some " ALICE@example.org ")
                    (Some "pw") (Some "555-0103") (Some "Agra") None)
    ex_now
  = (ex_db, None, (400, error "Email already registered.")).
Proof.
  assert (forall a b : string, String.eqb a b = false -> a <> b) as N
    by (intros a b E; now apply String.eqb_neq).
  apply (proj2 (register_rejects ex_generate_password_hash ex_db None
                  (mkRegisterData (Some "Mallory")
                     (Some " ALICE@example.org ") (Some "pw")
                     (Some "555-0103") (Some "Agra") None) ex_now)).
  - apply N; reflexivity.
  - apply N; reflexivity.
  - apply N; reflexivity.
  - apply N; reflexivity.
  - apply N; reflexivity.
  - exists ex_alice. split; [now left | reflexivity].
Defined.

Lemma login_after_register_witness :
  (forall p, ex_check_password_hash (ex_generate_password_hash p) p = true)
  /\ api_login ex_check_password_hash ex_db_eve None
       (Some "EVE@example.ORG ") (Some "secret")
     = (Some 3, (200, user_json ex_eve)).
Proof.
  assert (forall p, ex_check_password_hash (ex_generate_password_hash p) p
                    = true) as H
    by (intros p; apply String.eqb_refl).
  split; [exact H|].
  exact (login_after_register ex_generate_password_hash
           ex_check_password_hash ex_db None ex_register ex_now ex_db_eve
           (Some 3) ex_eve None (Some "EVE@example.ORG ") H eq_refl
           eq_refl).
Defined.

Lemma login_failure_uniform_witness :
  api_login ex_check_password_hash ex_db None (Some "alice@example.org")
            (Some "guess")
  = (None, (400, error "Invalid email or password")).
Proof.
  apply login_failure_uniform.
  intros u [<-|[<-|[]]] _; reflexivity.
Defined.

Lemma create_service_spec_witness :
  get_current_user ex_db (Some 2) = Some ex_bob
  /\ User.role ex_bob = "admin"
  /\ exists service,
       api_admin_create_service ex_db (Some 2) ex_service_data ex_now
       = (with_services ex_db (services ex_db ++ [service]),
          (201, service_json service))
       /\ Service.admin_id service = User.id ex_bob.
Proof.
  assert (forall a b : string, String.eqb a b = false -> a <> b) as N
    by (intros a b E; now apply String.eqb_neq).
  split; [reflexivity|]. split; [reflexivity|].
  assert (Py.strip (Py.or_str (svc_name ex_service_data) "") <> "") as A1
    by (apply N; reflexivity).
  assert (Py.strip (Py.or_str (svc_type ex_service_data) "") <> "") as A2
    by (apply N; reflexivity).
  assert (Py.strip (Py.or_str (svc_address ex_service_data) "") <> "") as A3
    by (apply N; reflexivity).
  destruct (proj2 (create_service_spec ex_db (Some 2) ex_bob ex_service_data
                     ex_now eq_refl eq_refl) A1 A2 A3)
    as [service (H1 & H2 & _)].
  exists service. split; [exact H1 | exact H2].
Defined.

Lemma delete_all_services_spec_witness :
  wf ex_db = true
  /\ get_current_user ex_db (Some 2) = Some ex_bob
  /\ User.role ex_bob = "admin"
  /\ forall k, owned_service
                 (fst (api_admin_delete_all_services ex_db (Some 2)))
                 ex_bob k = None.
Proof.
  split; [reflexivity|]. split; [reflexivity|]. split; [reflexivity|].
  exact (proj2 (proj2 (proj2 (proj2
           (delete_all_services_spec ex_db (Some 2) ex_bob eq_refl eq_refl
              eq_refl))))).
Defined.



Lemma create_slot_then_lookup_witness :
  wf ex_db = true
  /\ owned_service ex_db ex_bob 1 = Some ex_dentist
  /\ api_admin_create_slot ex_fromisoformat ex_db (Some 2) 1 (Some "")
                           ex_now
     = (ex_db, (400, error "time is required (ISO 8601)")).
Proof.
  split; [reflexivity|]. split; [reflexivity|].
  exact (proj1 (proj2 (create_slot_then_lookup ex_fromisoformat ex_db
                         (Some 2) ex_bob ex_dentist 1 ex_now eq_refl eq_refl
                         eq_refl eq_refl))).
Defined.





Lemma list_user_bookings_books_at_most_one_witness :
  get_current_user ex_db (Some 1) = Some ex_alice
  /\ forall k s s',
       get_slot ex_db k = Some s -> Slot.booked s = false ->
       get_slot (fst (api_list_user_bookings ex_db (Some 1) ex_now ex_now)) k
       = Some s' ->
       Slot.booked s' = true ->
       Slot.booked_by_id s' = Some (User.id ex_alice)
       /\ Slot.auto_rescheduled s' = true
       /\ Slot.booked_at s' = Some ex_now
       /\ Slot.status s' = "booked".
Proof.
  split; [reflexivity|].
  exact (proj1 (list_user_bookings_books_at_most_one ex_db (Some 1) ex_alice
                  ex_now ex_now eq_refl)).
Defined.


Lemma search_slots_spec_witness :
  get_current_user ex_db (Some 1) = Some ex_alice
  /\ api_search_slots ex_ilike ex_db (Some 1) (Some "  ") ex_now
     = (400, read_error "service_type is required").
Proof.
  split; [reflexivity|].
  exact (proj1 (search_slots_spec ex_ilike ex_db (Some 1) ex_alice
                  (Some "  ") ex_now eq_refl) eq_refl).
Defined.


Lemma admin_bookings_spec_witness :
  get_current_user ex_db (Some 2) = Some ex_bob
  /\ User.role ex_bob = "admin"
  /\ exists l,
       api_admin_bookings ex_db (Some 2)
       = (200, slots_with_service_json (map (to_dict_with_service ex_db) l))
       /\ StronglySorted (fun a b => Slot.time a <= Slot.time b) l.
Proof.
  split; [reflexivity|]. split; [reflexivity|].
  destruct (admin_bookings_spec ex_db (Some 2) ex_bob eq_refl eq_refl)
    as [l (H1 & H2 & _)].
  exists l. split; [exact H1 | exact H2].
Defined.

Lemma dashboard_metrics_spec_witness :
  get_current_user ex_db (Some 2) = Some ex_bob
  /\ User.role ex_bob = "admin"
  /\ exists available today pending,
       api_admin_dashboard_metrics ex_db (Some 2) ex_now
       = (200, metrics_json 1 available today pending)
       /\ available = 3%nat.
Proof.
  split; [reflexivity|]. split; [reflexivity|].
  destruct (dashboard_metrics_spec ex_db (Some 2) ex_bob ex_now eq_refl
              eq_refl)
    as (a & t & p & H1 & H2 & _).
  exists a, t, p. split; [exact H1 | exact H2].
Defined.
